(** * Top models of ParametricScatteringNetworks

    A shallow embedding of [parametricSN/models/sn_top_models.py]: the
    classes [sn_MLP], [BasicBlock], [sn_CNN], [sn_LinearLayer],
    [sn_Resnet50], [BasicBlockWRN16_8] and [WideResNet16_8].

    Python integers are [Z].  A framework layer is the record of the
    arguments its constructor received; what the layer computes is left to a
    [Backend].  An instance under construction is its attribute dictionary,
    and [__init__] is a computation over that dictionary which may raise,
    of itself or because a constructor of the framework refuses its
    arguments. *)

From Stdlib Require Import ZArith QArith Lia.
From stdpp Require Import base numbers gmap strings list.

Set Warnings "-register-all".
Open Scope Z_scope.

(** ** Exceptions and results *)

Inductive exn : Type :=
| AttributeError (name : string)
| TypeError
| ValueError
| IndexError
| RuntimeError.

Inductive result (A : Type) : Type :=
| Ok (a : A)
| Raise (e : exn).
Arguments Ok {A} a.
Arguments Raise {A} e.

(** ** The layer catalogue

    [torch.nn] layers keep the arguments of their constructors; the classes
    of the repository keep the attributes their [__init__] assigns.  The
    optional arguments that the source never passes ([eps], [momentum],
    [groups], ...) stay at the framework's defaults and are not recorded. *)

Inductive module : Type :=
| Conv2d (in_channels out_channels kernel_size stride padding : Z) (bias : bool)
| BatchNorm2d (num_features : Z) (affine : bool)
| ReLU (inplace : bool)
| Linear (in_features out_features : Z)
| Dropout (p : Q)
| AdaptiveAvgPool2d (output_size : Z)
| Sequential (children : list module)
| ResNet (arch : string) (pretrained : bool) (fc : module)
| MkBasicBlock (conv1 bn1 relu conv2 bn2 : module)
               (downsample : option module) (stride : Z)
| MkBasicBlockWRN16_8 (bn1 conv1 dropout bn2 conv2 relu : module)
                      (shortcut : option module) (use_conv1x1 : bool).

(** A value held by an attribute of a model instance. *)
Inductive value : Type :=
| VInt (n : Z)
| VBool (b : bool)
| VModule (m : module).

(** ** Attribute dictionaries and the constructor monad *)

Definition init (A : Type) : Type :=
  gmap string value -> result (A * gmap string value).

Definition init_ret {A} (a : A) : init A := fun self => Ok (a, self).

Definition init_bind {A B} (c : init A) (k : A -> init B) : init B :=
  fun self =>
    match c self with
    | Ok (a, self') => k a self'
    | Raise e => Raise e
    end.

#[global] Instance init_mret : MRet init := @init_ret.
#[global] Instance init_mbind : MBind init := fun A B k c => init_bind c k.

Definition py_raise {A} (e : exn) : init A := fun _ => Raise e.

(** [self.name = v] *)
Definition setattr (name : string) (v : value) : init unit :=
  fun self => Ok (tt, <[name := v]> self).

(** [self.name]; [nn.Module.__getattr__] raises when nothing was assigned. *)
Definition getattr (name : string) : init value :=
  fun self =>
    match self !! name with
    | Some v => Ok (v, self)
    | None => Raise (AttributeError name)
    end.

Definition getattr_int (name : string) : init Z :=
  v ← getattr name;
  match v with
  | VInt n => mret n
  | _ => py_raise TypeError
  end.

(** [for i in range(...)] over an accumulator. *)
Fixpoint for_each {A S} (xs : list A) (body : A -> S -> init S) (s : S) : init S :=
  match xs with
  | [] => mret s
  | i :: xs' => s' ← body i s; for_each xs' body s'
  end.

(** Python's [range(lo, hi)]. *)
Definition range (lo hi : Z) : list Z := seqZ lo (hi - lo).

(** The instance a class call returns: the dictionary [__init__] leaves. *)
Definition construct (c : init unit) : result (gmap string value) :=
  match c ∅ with
  | Ok (_, self) => Ok self
  | Raise e => Raise e
  end.

(** ** Constructor calls

    The constructors of the framework check their sizes: a layer whose
    parameter tensor would have a negative dimension raises [RuntimeError],
    and [nn.Dropout] raises [ValueError] for a probability outside [0, 1].
    The classes of this file check nothing themselves, so that constructing
    a container or a block raises what the first layer it builds raises, in
    the order of its [__init__].  A downsample module is handed to
    [BasicBlock] ready made.  [rejects m] is the exception raised while [m]
    is built from the arguments it records, if there is one. *)

Fixpoint rejects (m : module) : option exn :=
  match m with
  | Conv2d in_channels out_channels _ _ _ _ =>
      if (in_channels <? 0) || (out_channels <? 0) then Some RuntimeError
      else None
  | BatchNorm2d num_features _ =>
      if num_features <? 0 then Some RuntimeError else None
  | ReLU _ => None
  | Linear in_features out_features =>
      if (in_features <? 0) || (out_features <? 0) then Some RuntimeError
      else None
  | Dropout p =>
      if Qle_bool 0 p && Qle_bool p 1 then None else Some ValueError
  | AdaptiveAvgPool2d _ => None
  | Sequential children =>
      foldr (fun child later => rejects child ∪ later) None children
  | ResNet _ _ fc => rejects fc
  | MkBasicBlock conv1 bn1 relu conv2 bn2 _ _ =>
      rejects conv1 ∪ rejects bn1 ∪ rejects relu ∪ rejects conv2 ∪ rejects bn2
  | MkBasicBlockWRN16_8 bn1 conv1 dropout bn2 conv2 relu shortcut _ =>
      rejects bn1 ∪ rejects conv1 ∪ rejects dropout ∪ rejects bn2 ∪
      rejects conv2 ∪ rejects relu ∪
      match shortcut with Some s => rejects s | None => None end
  end.

(** [cls(...)] inside an [__init__]: the module with these arguments, or the
    exception its construction raises. *)
Definition new (m : module) : init module :=
  match rejects m with
  | Some e => py_raise e
  | None => mret m
  end.

(** ** Module-level helpers of the source *)

Definition conv3x3 (in_planes out_planes stride : Z) : module :=
  Conv2d in_planes out_planes 3 stride 1 false.

Definition conv1x1 (in_planes out_planes stride : Z) : module :=
  Conv2d in_planes out_planes 1 stride 0 false.

(** ** Tensors and the forward monad

    What a layer computes belongs to the framework.  A [Backend] gives the
    mode the model is in and, for that mode, the function of every framework
    layer, of the body of a torchvision residual network, of the in-place
    addition [a += b] and of [x.view(x.shape[0], -1)]; each may raise. *)

Class Backend : Type := {
  training : bool;
  Tensor : Type;
  layer_fn : module -> Tensor -> result Tensor;
  resnet_features : string -> bool -> Tensor -> result Tensor;
  tensor_add : Tensor -> Tensor -> result Tensor;
  tensor_flatten : Tensor -> result Tensor;
}.

(** Python variables hold references.  [heap] maps a reference to the tensor
    it points to, so that [nn.ReLU(inplace=True)] and [out += residual]
    overwrite what every alias sees; [applied] lists the framework layers
    called so far, in order. *)
Record fstate `{Backend} : Type := {
  heap : list Tensor;
  applied : list module;
}.

Section ForwardMonad.
Context `{Backend}.

Definition fwd (A : Type) : Type := fstate -> result A * fstate.

Definition fwd_ret {A} (a : A) : fwd A := fun σ => (Ok a, σ).

Definition fwd_bind {A B} (c : fwd A) (k : A -> fwd B) : fwd B :=
  fun σ =>
    match c σ with
    | (Ok a, σ') => k a σ'
    | (Raise e, σ') => (Raise e, σ')
    end.

#[global] Instance fwd_mret : MRet fwd := @fwd_ret.
#[global] Instance fwd_mbind : MBind fwd := fun A B k c => fwd_bind c k.

Definition lift {A} (r : result A) : fwd A := fun σ => (r, σ).

Definition load (x : nat) : fwd Tensor :=
  fun σ =>
    match heap σ !! x with
    | Some t => (Ok t, σ)
    | None => (Raise RuntimeError, σ)
    end.

Definition alloc (t : Tensor) : fwd nat :=
  fun σ => (Ok (length (heap σ)),
            {| heap := heap σ ++ [t]; applied := applied σ |}).

Definition store (x : nat) (t : Tensor) : fwd unit :=
  fun σ => (Ok tt, {| heap := <[x := t]> (heap σ); applied := applied σ |}).

Definition record_call (m : module) : fwd unit :=
  fun σ => (Ok tt, {| heap := heap σ; applied := applied σ ++ [m] |}).

(** Calling a framework layer.  An in-place ReLU writes its result over
    its argument and returns the same reference, and so does a dropout
    outside training, which hands its argument back; every other layer
    returns a new tensor. *)
Definition call_layer (m : module) (x : nat) : fwd nat :=
  record_call m;;
  t ← load x;
  t' ← lift (layer_fn m t);
  match m with
  | ReLU true => store x t';; mret x
  | Dropout _ => if training then alloc t' else (store x t';; mret x)
  | _ => alloc t'
  end.

(** [out += residual] *)
Definition iadd (out residual : nat) : fwd nat :=
  a ← load out;
  b ← load residual;
  c ← lift (tensor_add a b);
  store out c;;
  mret out.

(** [x.view(x.shape[0], -1)] and [x.reshape(x.shape[0], -1)].  The result
    is given a reference of its own: nothing in the source writes in place
    to a view or to its base afterwards. *)
Definition view_flat (x : nat) : fwd nat :=
  t ← load x;
  t' ← lift (tensor_flatten t);
  alloc t'.

(** Reading an attribute of a constructed instance. *)
Definition self_attr (self : gmap string value) (name : string) : fwd value :=
  match self !! name with
  | Some v => mret v
  | None => lift (Raise (AttributeError name))
  end.

Definition self_module (self : gmap string value) (name : string) : fwd module :=
  v ← self_attr self name;
  match v with
  | VModule m => mret m
  | _ => lift (Raise TypeError)
  end.

Definition self_bool (self : gmap string value) (name : string) : fwd bool :=
  v ← self_attr self name;
  match v with
  | VBool b => mret b
  | _ => lift (Raise TypeError)
  end.

End ForwardMonad.

(** ** The residual blocks

    A block's [forward] calls its children through [call], the dispatch of
    [nn.Module.__call__], which is tied below. *)

Module BasicBlock.

(** The attributes [__init__] assigns.  Whether the layers can be built from
    these arguments is [rejects]'s to say: every [BasicBlock(...)] of the
    source is a [new (__init__ ...)]. *)
Definition __init__ (inplanes planes stride : Z) (downsample : option module)
  : module :=
  MkBasicBlock (conv3x3 inplanes planes stride)
               (BatchNorm2d planes true)
               (ReLU true)
               (conv3x3 planes planes 1)
               (BatchNorm2d planes true)
               downsample
               stride.

Definition forward `{Backend} (call : module -> nat -> fwd nat)
    (conv1 bn1 relu conv2 bn2 : module) (downsample : option module)
    (x : nat) : fwd nat :=
  let residual := x in
  out ← call conv1 x;
  out ← call bn1 out;
  out ← call relu out;
  out ← call conv2 out;
  out ← call bn2 out;
  residual ← match downsample with
             | Some downsample => call downsample x
             | None => mret residual
             end;
  out ← iadd out residual;
  out ← call relu out;
  mret out.

End BasicBlock.

Module BasicBlockWRN16_8.

(** The attributes [__init__] assigns; as for [BasicBlock], every
    [BasicBlockWRN16_8(...)] of the source is a [new (__init__ ...)], which
    raises for a negative size or a dropout probability outside [0, 1]. *)
Definition __init__ (inplanes planes : Z) (dropout : Q) (stride : Z) : module :=
  let bn1 := BatchNorm2d inplanes true in
  let conv1 := conv3x3 inplanes planes stride in
  let dropout := Dropout dropout in
  let bn2 := BatchNorm2d planes true in
  let conv2 := conv3x3 planes planes 1 in
  let relu := ReLU true in
  if negb (stride =? 1) || negb (inplanes =? planes) then
    MkBasicBlockWRN16_8 bn1 conv1 dropout bn2 conv2 relu
      (Some (conv1x1 inplanes planes stride)) true
  else
    MkBasicBlockWRN16_8 bn1 conv1 dropout bn2 conv2 relu None false.

Definition forward `{Backend} (call : module -> nat -> fwd nat)
    (bn1 conv1 dropout bn2 conv2 relu : module) (shortcut : option module)
    (use_conv1x1 : bool) (x : nat) : fwd nat :=
  out ← call bn1 x;
  out ← call relu out;
  shortcut ← (if use_conv1x1 then
                match shortcut with
                | Some shortcut => call shortcut out
                | None => lift (Raise (AttributeError "shortcut"))
                end
              else mret x);
  out ← call conv1 out;
  out ← call bn2 out;
  out ← call relu out;
  out ← call dropout out;
  out ← call conv2 out;
  out ← iadd out shortcut;
  mret out.

End BasicBlockWRN16_8.

(** [module(x)]: a framework layer is applied, a container or a block runs
    its own [forward]. *)
Fixpoint call `{B : Backend} (m : module) (x : nat) {struct m} : fwd nat :=
  match m with
  | Sequential children =>
      (fix seq (ms : list module) (x : nat) : fwd nat :=
         match ms with
         | [] => mret x
         | m' :: ms' => y ← call m' x; seq ms' y
         end) children x
  | ResNet arch pretrained fc =>
      record_call m;;
      t ← load x;
      f ← lift (resnet_features arch pretrained t);
      y ← alloc f;
      call fc y
  | MkBasicBlock conv1 bn1 relu conv2 bn2 downsample _ =>
      BasicBlock.forward call conv1 bn1 relu conv2 bn2 downsample x
  | MkBasicBlockWRN16_8 bn1 conv1 dropout bn2 conv2 relu shortcut use_conv1x1 =>
      BasicBlockWRN16_8.forward call bn1 conv1 dropout bn2 conv2 relu
        shortcut use_conv1x1 x
  | _ => call_layer m x
  end.

(** ** The models *)

Module sn_MLP.

Definition __init__ (num_classes n_coefficients M_coefficient N_coefficient : Z)
  : init unit :=
  setattr "num_classes" (VInt num_classes);;
  fc1 ← new (Linear (3 * M_coefficient * N_coefficient * n_coefficients) 512);
  self_n_coefficients ← getattr_int "n_coefficients";
  layers ← new (Sequential [
    BatchNorm2d (self_n_coefficients * 3) true;
    fc1;
    ReLU false;
    Linear 512 256;
    ReLU false;
    Linear 256 128;
    ReLU false;
    Linear 128 64;
    ReLU false;
    Linear 64 num_classes
  ]);
  setattr "layers" (VModule layers).

Definition forward `{Backend} (self : gmap string value) (x : nat) : fwd nat :=
  x ← view_flat x;
  layers ← self_module self "layers";
  call layers x.

End sn_MLP.

Module sn_CNN.

Definition _make_layer (block : Z -> Z -> Z -> option module -> module)
    (planes blocks stride : Z) : init module :=
  inplanes0 ← getattr_int "inplanes";
  downsample ←
    (if negb (stride =? 1) || negb (inplanes0 =? planes) then
       inplanes ← getattr_int "inplanes";
       downsample ← new (Sequential [
         Conv2d inplanes planes 1 stride 0 false;
         BatchNorm2d planes true ]);
       mret (Some downsample)
     else mret None);
  inplanes ← getattr_int "inplanes";
  first ← new (block inplanes planes stride downsample);
  let layers := [first] in
  setattr "inplanes" (VInt planes);;
  layers ← for_each (range 1 blocks)
    (fun _ layers =>
       inplanes ← getattr_int "inplanes";
       next ← new (block inplanes planes 1 None);
       mret (layers ++ [next]))
    layers;
  mret (Sequential layers).

Definition __init__ (in_channels k n num_classes : Z) (standard : bool)
  : init unit :=
  bn0 ← new (BatchNorm2d (in_channels * 3) true);
  setattr "bn0" (VModule bn0);;
  setattr "inplanes" (VInt (16 * k));;
  setattr "ichannels" (VInt (16 * k));;
  setattr "in_channels" (VInt in_channels);;
  setattr "num_classes" (VInt num_classes);;
  let in_channels := in_channels * 3 in
  (if standard then
     ichannels ← getattr_int "ichannels";
     init_conv ← new (Sequential [
       Conv2d 3 ichannels 3 1 1 false;
       BatchNorm2d ichannels true;
       ReLU true ]);
     setattr "init_conv" (VModule init_conv);;
     layer1 ← _make_layer BasicBlock.__init__ (16 * k) n 1;
     setattr "layer1" (VModule layer1);;
     setattr "standard" (VBool true)
   else
     setattr "K" (VInt in_channels);;
     ichannels ← getattr_int "ichannels";
     init_conv ← new (Sequential [
       BatchNorm2d in_channels false;
       Conv2d in_channels ichannels 3 1 1 false;
       BatchNorm2d ichannels true;
       ReLU true ]);
     setattr "init_conv" (VModule init_conv);;
     setattr "standard" (VBool false));;
  layer2 ← _make_layer BasicBlock.__init__ (32 * k) n 1;
  setattr "layer2" (VModule layer2);;
  layer3 ← _make_layer BasicBlock.__init__ (64 * k) n 1;
  setattr "layer3" (VModule layer3);;
  setattr "avgpool" (VModule (AdaptiveAvgPool2d 2));;
  fc ← new (Linear (64 * k * 4) num_classes);
  setattr "fc" (VModule fc).

Definition forward `{Backend} (self : gmap string value) (x : nat) : fwd nat :=
  standard ← self_bool self "standard";
  (if negb standard then mret tt else mret tt);;
  bn0 ← self_module self "bn0";
  x ← call bn0 x;
  init_conv ← self_module self "init_conv";
  x ← call init_conv x;
  standard ← self_bool self "standard";
  x ← (if (standard : bool) then
         layer1 ← self_module self "layer1";
         call layer1 x
       else mret x);
  layer2 ← self_module self "layer2";
  x ← call layer2 x;
  layer3 ← self_module self "layer3";
  x ← call layer3 x;
  avgpool ← self_module self "avgpool";
  x ← call avgpool x;
  x ← view_flat x;
  fc ← self_module self "fc";
  x ← call fc x;
  mret x.

End sn_CNN.

Module sn_LinearLayer.

Definition __init__ (num_classes n_coefficients M_coefficient N_coefficient : Z)
  : init unit :=
  setattr "n_coefficients" (VInt n_coefficients);;
  setattr "num_classes" (VInt num_classes);;
  fc1 ← new
    (Linear (3 * M_coefficient * N_coefficient * n_coefficients) num_classes);
  setattr "fc1" (VModule fc1);;
  self_n_coefficients ← getattr_int "n_coefficients";
  bn0 ← new (BatchNorm2d (self_n_coefficients * 3) true);
  setattr "bn0" (VModule bn0).

Definition forward `{Backend} (self : gmap string value) (x : nat) : fwd nat :=
  bn0 ← self_module self "bn0";
  x ← call bn0 x;
  x ← view_flat x;
  fc1 ← self_module self "fc1";
  x ← call fc1 x;
  mret x.

End sn_LinearLayer.

(** [torchvision.models.resnet50]: every child but the classifier is fixed by
    the architecture and by whether the ImageNet weights are loaded; the
    classifier is a linear layer from 2048 features to the 1000 ImageNet
    classes. *)
Definition models_resnet50 (pretrained : bool) : module :=
  ResNet "resnet50" pretrained (Linear 2048 1000).

Module sn_Resnet50.

(** [self.model_ft.fc.in_features] *)
Definition fc_in_features (model_ft : module) : init Z :=
  match model_ft with
  | ResNet _ _ (Linear in_features _) => mret in_features
  | _ => py_raise (AttributeError "in_features")
  end.

(** [self.model_ft.fc = fc] *)
Definition set_fc (model_ft fc : module) : module :=
  match model_ft with
  | ResNet arch pretrained _ => ResNet arch pretrained fc
  | other => other
  end.

Definition __init__ (num_classes : Z) : init unit :=
  setattr "model_ft" (VModule (models_resnet50 true));;
  model_ft ← getattr "model_ft";
  match model_ft with
  | VModule model_ft =>
      num_ftrs ← fc_in_features model_ft;
      fc ← new (Linear num_ftrs num_classes);
      setattr "model_ft" (VModule (set_fc model_ft fc));;
      setattr "num_classes" (VInt num_classes)
  | _ => py_raise TypeError
  end.

Definition forward `{Backend} (self : gmap string value) (x : nat) : fwd nat :=
  model_ft ← self_module self "model_ft";
  x ← call model_ft x;
  mret x.

End sn_Resnet50.

Module WideResNet16_8.

Definition _make_layer (planes blocks : Z) (dropout : Q) (stride : Z)
  : init module :=
  layers ← for_each (range 0 blocks)
    (fun i layers =>
       inplanes ← getattr_int "inplanes";
       block ← new (BasicBlockWRN16_8.__init__ inplanes planes dropout
                      (if i =? 0 then stride else 1));
       let layers := layers ++ [block] in
       setattr "inplanes" (VInt planes);;
       mret layers)
    [];
  mret (Sequential layers).

(** The closing loop of the source draws new weights for every convolution
    ([kaiming_normal_]); it changes no attribute and no layer argument. *)
Definition __init__ (depth width num_classes : Z) (dropout : Q) : init unit :=
  let layer := (depth - 4) `div` 6 in
  setattr "inplanes" (VInt 16);;
  setattr "conv" (VModule (conv3x3 3 16 1));;
  layer1 ← _make_layer (16 * width) layer dropout 1;
  setattr "layer1" (VModule layer1);;
  layer2 ← _make_layer (32 * width) layer dropout 2;
  setattr "layer2" (VModule layer2);;
  layer3 ← _make_layer (64 * width) layer dropout 2;
  setattr "layer3" (VModule layer3);;
  bn ← new (BatchNorm2d (64 * width) true);
  setattr "bn" (VModule bn);;
  setattr "relu" (VModule (ReLU true));;
  setattr "avgpool" (VModule (AdaptiveAvgPool2d 1));;
  fc ← new (Linear (64 * width) num_classes);
  setattr "fc" (VModule fc).

Definition forward `{Backend} (self : gmap string value) (x : nat) : fwd nat :=
  conv ← self_module self "conv";
  x ← call conv x;
  layer1 ← self_module self "layer1";
  x ← call layer1 x;
  layer2 ← self_module self "layer2";
  x ← call layer2 x;
  layer3 ← self_module self "layer3";
  x ← call layer3 x;
  bn ← self_module self "bn";
  x ← call bn x;
  relu ← self_module self "relu";
  x ← call relu x;
  avgpool ← self_module self "avgpool";
  x ← call avgpool x;
  x ← view_flat x;
  fc ← self_module self "fc";
  x ← call fc x;
  mret x.

(** A parameter tensor, as far as [countLearnableParams] looks at it. *)
Record parameter : Type := {
  numel : Z;
  requires_grad : bool;
}.

(** [parameters] is what [self.parameters()] yields, in order. *)
Definition countLearnableParams (parameters : list parameter) : Z :=
  let count := 0 in
  foldl (fun count t => count + numel t) count parameters.

End WideResNet16_8.


(** ** Running a forward pass

    One call on one input tensor: the value of the tensor returned, or the
    exception raised, together with the framework layers applied. *)

Definition run_forward `{B : Backend} (f : nat -> fwd nat) (t : Tensor)
  : result Tensor * list module :=
  match f 0%nat {| heap := [t]; applied := [] |} with
  | (Ok y, σ) =>
      (match heap σ !! y with Some v => Ok v | None => Raise RuntimeError end,
       applied σ)
  | (Raise e, σ) => (Raise e, applied σ)
  end.

(** The tensor a reference returned by a computation points to. *)
Definition returned `{B : Backend} (r : result nat * fstate) : result Tensor :=
  match r with
  | (Ok y, σ) =>
      match heap σ !! y with Some v => Ok v | None => Raise RuntimeError end
  | (Raise e, _) => Raise e
  end.

(** ** Shapes

    The backend in which a tensor is its shape.  The rules are the ones the
    framework documents and enforces: a 2-d convolution wants [C_in]
    channels and a padded input no smaller than its kernel, and yields
    [floor((size + 2*padding - kernel) / stride) + 1] per spatial dimension;
    [BatchNorm2d] wants a 4-d input with [num_features] channels, at least
    one, and, while training, more than one value per channel; [Linear] wants
    [in_features] as the last dimension; adaptive pooling fixes the spatial
    size; an in-place addition needs the right operand to broadcast to the
    left one; [view(x.shape[0], -1)] cannot infer [-1] for an empty batch. *)

Module Shape.

Definition conv_out (size kernel stride padding : Z) : Z :=
  (size + 2 * padding - kernel) `div` stride + 1.

Definition conv2d (cin cout k st p : Z) (s : list Z) : result (list Z) :=
  match s with
  | [n; c; h; w] =>
      if (c =? cin) && (k <=? h + 2 * p) && (k <=? w + 2 * p) && (0 <? st)
      then Ok [n; cout; conv_out h k st p; conv_out w k st p]
      else Raise RuntimeError
  | [c; h; w] =>
      if (c =? cin) && (k <=? h + 2 * p) && (k <=? w + 2 * p) && (0 <? st)
      then Ok [cout; conv_out h k st p; conv_out w k st p]
      else Raise RuntimeError
  | _ => Raise RuntimeError
  end.

Definition batch_norm2d (training : bool) (c : Z) (s : list Z)
  : result (list Z) :=
  match s with
  | [n; c'; h; w] =>
      if training && (n * h * w =? 1) then Raise ValueError
      else if negb (c' =? c) then Raise RuntimeError
      else if c =? 0 then Raise IndexError
      else Ok s
  | _ => Raise ValueError
  end.

Definition linear (fin fout : Z) (s : list Z) : result (list Z) :=
  match reverse s with
  | d :: rest =>
      if d =? fin then Ok (reverse (fout :: rest)) else Raise RuntimeError
  | [] => Raise RuntimeError
  end.

Definition adaptive_avg_pool2d (o : Z) (s : list Z) : result (list Z) :=
  match s with
  | [n; c; h; w] =>
      if (0 <? c) && (0 <? h) && (0 <? w) then Ok [n; c; o; o]
      else Raise RuntimeError
  | [c; h; w] =>
      if (0 <? c) && (0 <? h) && (0 <? w) then Ok [c; o; o]
      else Raise RuntimeError
  | _ => Raise RuntimeError
  end.

Definition layer (training : bool) (m : module) (s : list Z)
  : result (list Z) :=
  match m with
  | Conv2d cin cout k st p _ => conv2d cin cout k st p s
  | BatchNorm2d c _ => batch_norm2d training c s
  | ReLU _ => Ok s
  | Linear fin fout => linear fin fout s
  | Dropout _ => Ok s
  | AdaptiveAvgPool2d o => adaptive_avg_pool2d o s
  | _ => Raise TypeError
  end.

(** Spatial size after the stem and the four stages of a torchvision
    residual network: a 7x7 convolution of stride 2, a 3x3 pooling of
    stride 2, then three stages of stride 2. *)
Definition resnet_out (size : Z) : Z :=
  let size := conv_out size 7 2 3 in
  let size := conv_out size 3 2 1 in
  let size := conv_out size 3 2 1 in
  let size := conv_out size 3 2 1 in
  conv_out size 3 2 1.

Definition resnet50_features (training : bool) (arch : string)
    (pretrained : bool) (s : list Z) : result (list Z) :=
  match s with
  | [n; c; h; w] =>
      if (c =? 3) && (0 <? h) && (0 <? w) then
        if training && (n * resnet_out h * resnet_out w =? 1)
        then Raise ValueError
        else Ok [n; 2048]
      else Raise RuntimeError
  | _ => Raise RuntimeError
  end.

(** [b] broadcasts to [a]; both are given last dimension first. *)
Fixpoint broadcasts_to (a b : list Z) : bool :=
  match b, a with
  | [], _ => true
  | db :: b', da :: a' => ((db =? da) || (db =? 1)) && broadcasts_to a' b'
  | _ :: _, [] => false
  end.

Definition add (a b : list Z) : result (list Z) :=
  if broadcasts_to (reverse a) (reverse b) then Ok a else Raise RuntimeError.

Definition product (s : list Z) : Z := foldr Z.mul 1 s.

Definition flatten (s : list Z) : result (list Z) :=
  match s with
  | n :: rest =>
      if n =? 0 then Raise RuntimeError else Ok [n; product rest]
  | [] => Raise RuntimeError
  end.

Definition backend (mode : bool) : Backend := {|
  training := mode;
  Tensor := list Z;
  layer_fn := layer mode;
  resnet_features := resnet50_features mode;
  tensor_add := add;
  tensor_flatten := flatten;
|}.

End Shape.

(** ** Reference semantics

    The functional reading of a module, without references: what the
    architecture says a module computes from the value of its argument.
    [call] is compared against it. *)

#[global] Instance result_mret : MRet result := @Ok.
#[global] Instance result_mbind : MBind result :=
  fun A B k r => match r with Ok a => k a | Raise e => Raise e end.

Fixpoint denote `{B : Backend} (m : module) (t : Tensor) {struct m} : result Tensor :=
  match m with
  | Sequential children =>
      (fix seq (ms : list module) (t : Tensor) : result Tensor :=
         match ms with
         | [] => Ok t
         | m' :: ms' => u ← denote m' t; seq ms' u
         end) children t
  | ResNet arch pretrained fc =>
      f ← resnet_features arch pretrained t;
      denote fc f
  | MkBasicBlock conv1 bn1 relu conv2 bn2 downsample _ =>
      out ← denote conv1 t;
      out ← denote bn1 out;
      out ← denote relu out;
      out ← denote conv2 out;
      out ← denote bn2 out;
      r ← match downsample with
          | Some downsample => denote downsample t
          | None => Ok t
          end;
      out ← tensor_add out r;
      denote relu out
  | MkBasicBlockWRN16_8 bn1 conv1 dropout bn2 conv2 relu shortcut use_conv1x1 =>
      act ← denote bn1 t;
      act ← denote relu act;
      r ← (if use_conv1x1 then
             match shortcut with
             | Some shortcut => denote shortcut act
             | None => Raise (AttributeError "shortcut")
             end
           else Ok t);
      out ← denote conv1 act;
      out ← denote bn2 out;
      out ← denote relu out;
      out ← denote dropout out;
      out ← denote conv2 out;
      tensor_add out r
  | _ => layer_fn m t
  end.

(** [keeps m]: a call of [m] neither overwrites its argument nor returns
    it. *)
Fixpoint keeps (m : module) : bool :=
  match m with
  | ReLU inplace => negb inplace
  | Dropout _ => false
  | Sequential children =>
      match children with
      | [] => false
      | m' :: _ => keeps m'
      end
  | MkBasicBlock conv1 _ _ _ _ downsample _ =>
      keeps conv1 &&
      match downsample with Some d => keeps d | None => true end
  | MkBasicBlockWRN16_8 bn1 _ _ _ _ _ _ _ => keeps bn1
  | _ => true
  end.

(** [alias_free m]: inside [m], no tensor is overwritten while an earlier
    value of it is still to be read. *)
Fixpoint alias_free (m : module) : bool :=
  match m with
  | Sequential children => forallb alias_free children
  | ResNet _ _ fc => alias_free fc
  | MkBasicBlock conv1 bn1 relu conv2 bn2 downsample _ =>
      alias_free conv1 && alias_free bn1 && alias_free relu &&
      alias_free conv2 && alias_free bn2 &&
      match downsample with Some d => alias_free d | None => true end &&
      keeps conv1
  | MkBasicBlockWRN16_8 bn1 conv1 dropout bn2 conv2 relu shortcut use_conv1x1 =>
      alias_free bn1 && alias_free conv1 && alias_free dropout &&
      alias_free bn2 && alias_free conv2 && alias_free relu &&
      keeps bn1 &&
      (if use_conv1x1 then
         match shortcut with
         | Some s => alias_free s && keeps s
         | None => true
         end
       else true)
  | _ => true
  end.

(** ** Topology

    The framework layers a call of a module applies, read off the module
    alone. *)
Fixpoint topology (m : module) : list module :=
  match m with
  | Sequential children => flat_map topology children
  | ResNet _ _ fc => m :: topology fc
  | MkBasicBlock conv1 bn1 relu conv2 bn2 downsample _ =>
      topology conv1 ++ topology bn1 ++ topology relu ++
      topology conv2 ++ topology bn2 ++
      match downsample with Some d => topology d | None => [] end ++
      topology relu
  | MkBasicBlockWRN16_8 bn1 conv1 dropout bn2 conv2 relu shortcut use_conv1x1 =>
      topology bn1 ++ topology relu ++
      (if use_conv1x1 then
         match shortcut with Some s => topology s | None => [] end
       else []) ++
      topology conv1 ++ topology bn2 ++ topology relu ++
      topology dropout ++ topology conv2
  | _ => [m]
  end.

(** The layers of the module an attribute holds; nothing when the attribute
    is missing or holds no module. *)
Definition attr_topology (self : gmap string value) (name : string)
  : list module :=
  match self !! name with
  | Some (VModule m) => topology m
  | _ => []
  end.

(** An instance of one of the seven classes. *)
Inductive instance : Type :=
| Is_sn_MLP (self : gmap string value)
| Is_sn_LinearLayer (self : gmap string value)
| Is_sn_CNN (self : gmap string value)
| Is_sn_Resnet50 (self : gmap string value)
| Is_WideResNet16_8 (self : gmap string value)
| Is_BasicBlock (conv1 bn1 relu conv2 bn2 : module)
                (downsample : option module) (stride : Z)
| Is_BasicBlockWRN16_8 (bn1 conv1 dropout bn2 conv2 relu : module)
                       (shortcut : option module) (use_conv1x1 : bool).

Definition instance_forward `{Backend} (i : instance) (x : nat) : fwd nat :=
  match i with
  | Is_sn_MLP self => sn_MLP.forward self x
  | Is_sn_LinearLayer self => sn_LinearLayer.forward self x
  | Is_sn_CNN self => sn_CNN.forward self x
  | Is_sn_Resnet50 self => sn_Resnet50.forward self x
  | Is_WideResNet16_8 self => WideResNet16_8.forward self x
  | Is_BasicBlock conv1 bn1 relu conv2 bn2 downsample stride =>
      BasicBlock.forward call conv1 bn1 relu conv2 bn2 downsample x
  | Is_BasicBlockWRN16_8 bn1 conv1 dropout bn2 conv2 relu shortcut use_conv1x1 =>
      BasicBlockWRN16_8.forward call bn1 conv1 dropout bn2 conv2 relu
        shortcut use_conv1x1 x
  end.

(** The layers a forward pass of an instance applies, read off the
    attributes fixed at construction. *)
Definition instance_topology (i : instance) : list module :=
  match i with
  | Is_sn_MLP self => attr_topology self "layers"
  | Is_sn_LinearLayer self =>
      attr_topology self "bn0" ++ attr_topology self "fc1"
  | Is_sn_CNN self =>
      attr_topology self "bn0" ++ attr_topology self "init_conv" ++
      (match self !! "standard" with
       | Some (VBool true) => attr_topology self "layer1"
       | _ => []
       end) ++
      attr_topology self "layer2" ++ attr_topology self "layer3" ++
      attr_topology self "avgpool" ++ attr_topology self "fc"
  | Is_sn_Resnet50 self => attr_topology self "model_ft"
  | Is_WideResNet16_8 self =>
      attr_topology self "conv" ++ attr_topology self "layer1" ++
      attr_topology self "layer2" ++ attr_topology self "layer3" ++
      attr_topology self "bn" ++ attr_topology self "relu" ++
      attr_topology self "avgpool" ++ attr_topology self "fc"
  | Is_BasicBlock conv1 bn1 relu conv2 bn2 downsample stride =>
      topology (MkBasicBlock conv1 bn1 relu conv2 bn2 downsample stride)
  | Is_BasicBlockWRN16_8 bn1 conv1 dropout bn2 conv2 relu shortcut use_conv1x1 =>
      topology (MkBasicBlockWRN16_8 bn1 conv1 dropout bn2 conv2 relu
                  shortcut use_conv1x1)
  end.

(** ** Reading a residual group *)

(** The number of channels a block produces: the output channels of its
    second convolution. *)
Definition block_planes (m : module) : option Z :=
  match m with
  | MkBasicBlock _ _ _ (Conv2d _ planes _ _ _ _) _ _ _ => Some planes
  | MkBasicBlockWRN16_8 _ _ _ _ (Conv2d _ planes _ _ _ _) _ _ _ => Some planes
  | _ => None
  end.

(** The module an attribute of a constructed instance holds. *)
Definition attr_module (self : gmap string value) (name : string)
  : option module :=
  match self !! name with
  | Some (VModule m) => Some m
  | _ => None
  end.

(** The group [sn_CNN._make_layer(BasicBlock, planes, blocks)] builds when
    entered with [self.inplanes = inplanes]. *)
Definition residual_group (inplanes planes blocks : Z) : list module :=
  BasicBlock.__init__ inplanes planes 1
    (if negb (1 =? 1) || negb (inplanes =? planes)
     then Some (Sequential [Conv2d inplanes planes 1 1 0 false;
                            BatchNorm2d planes true])
     else None) ::
  replicate (Z.to_nat (blocks - 1)) (BasicBlock.__init__ planes planes 1 None).

(** ** Specifications of computations *)

Section Specifications.
Context `{B : Backend}.
Local Open Scope nat_scope.

(** [traces c L]: from any state, [c] appends to [applied] a prefix of [L],
    and all of [L] when it returns. *)
Definition traces {A} (c : fwd A) (L : list module) : Prop :=
  forall σ, exists done,
    applied (c σ).2 = applied σ ++ done /\
    done `prefix_of` L /\
    (forall a, (c σ).1 = Ok a -> done = L).

(** [sound m]: a call of [m] on a reference [x] holding [t] changes no
    older tensor but [x], returns [x] or a new reference, leaves [x] alone
    and returns a new reference when [keeps m], and returns a reference to
    the value [denote m t]; it raises what [denote m t] raises. *)
Definition sound (m : module) : Prop :=
  forall x σ t, heap σ !! x = Some t ->
    match call m x σ with
    | (Ok y, σ') =>
        length (heap σ) <= length (heap σ') /\
        (forall l, l < length (heap σ) -> l <> x -> heap σ' !! l = heap σ !! l) /\
        (y = x \/ length (heap σ) <= y) /\
        (keeps m = true -> length (heap σ) <= y /\ heap σ' !! x = Some t) /\
        exists t', denote m t = Ok t' /\ heap σ' !! y = Some t'
    | (Raise e, _) => denote m t = Raise e
    end.

(** A chain of calls inside a block entered at [σ0] with argument [x]: the
    tensor [y] the chain is at was created after [σ0], and nothing older
    than [σ0] has changed, [x] apart. *)
Definition chain (x : nat) (σ0 σ : fstate) (y : nat) (v : Tensor) : Prop :=
  x < length (heap σ0) /\
  length (heap σ0) <= length (heap σ) /\
  (forall l, l < length (heap σ0) -> l <> x -> heap σ !! l = heap σ0 !! l) /\
  length (heap σ0) <= y /\
  heap σ !! y = Some v.

(** [runs c σ v L]: from [σ], [c] returns a reference to [v] after applying
    exactly the layers [L]. *)
Definition runs (c : fwd nat) (σ : fstate) (v : Tensor) (L : list module)
  : Prop :=
  exists y σ',
    c σ = (Ok y, σ') /\ heap σ' !! y = Some v /\ applied σ' = applied σ ++ L.

End Specifications.

(** The sum of [numel] over a list of parameters, and over those that are,
    or are not, trainable. *)
Definition numel_sum (parameters : list WideResNet16_8.parameter) : Z :=
  foldr Z.add 0 (WideResNet16_8.numel <$> parameters).

Definition learnable (parameters : list WideResNet16_8.parameter)
  : list WideResNet16_8.parameter :=
  filter (fun t => WideResNet16_8.requires_grad t = true) parameters.

Definition frozen (parameters : list WideResNet16_8.parameter)
  : list WideResNet16_8.parameter :=
  filter (fun t => WideResNet16_8.requires_grad t = false) parameters.

(** ** Strided shapes, wide groups and untouched tensors *)

(** The spatial size left by a convolution of stride [s] whose padding is
    half its odd kernel: the input size divided by [s], rounded up. *)
Definition strided (s size : Z) : Z := (size - 1) `div` s + 1.

(** The group [WideResNet16_8._make_layer(planes, blocks, dropout, stride)]
    builds when entered with [self.inplanes = inplanes]. *)
Definition wide_group (inplanes planes : Z) (dropout : Q) (stride blocks : Z)
  : list module :=
  match Z.to_nat blocks with
  | O => []
  | S k =>
      BasicBlockWRN16_8.__init__ inplanes planes dropout stride ::
      replicate k (BasicBlockWRN16_8.__init__ planes planes dropout 1)
  end.



(** ** What the constructors leave in an instance *)

(** The modules [sn_CNN.__init__] assigns, and the flag [forward] reads. *)
Definition sn_CNN_attrs (self : gmap string value)
    (in_channels k n num_classes : Z) (standard : bool) : Prop :=
  self !! "standard" = Some (VBool standard) /\
  self !! "bn0" = Some (VModule (BatchNorm2d (in_channels * 3) true)) /\
  self !! "init_conv" = Some (VModule
    (if standard then
       Sequential [Conv2d 3 (16 * k) 3 1 1 false;
                   BatchNorm2d (16 * k) true; ReLU true]
     else
       Sequential [BatchNorm2d (in_channels * 3) false;
                   Conv2d (in_channels * 3) (16 * k) 3 1 1 false;
                   BatchNorm2d (16 * k) true; ReLU true])) /\
  self !! "layer1" =
    (if standard
     then Some (VModule (Sequential (residual_group (16 * k) (16 * k) n)))
     else None) /\
  self !! "layer2" =
    Some (VModule (Sequential (residual_group (16 * k) (32 * k) n))) /\
  self !! "layer3" =
    Some (VModule (Sequential (residual_group (32 * k) (64 * k) n))) /\
  self !! "avgpool" = Some (VModule (AdaptiveAvgPool2d 2)) /\
  self !! "fc" = Some (VModule (Linear (64 * k * 4) num_classes)).

(** The modules [WideResNet16_8.__init__] assigns. *)
Definition WideResNet16_8_attrs (self : gmap string value)
    (depth width num_classes : Z) (dropout : Q) : Prop :=
  self !! "conv" = Some (VModule (conv3x3 3 16 1)) /\
  self !! "layer1" = Some (VModule (Sequential
    (wide_group 16 (16 * width) dropout 1 ((depth - 4) `div` 6)))) /\
  self !! "layer2" = Some (VModule (Sequential
    (wide_group (16 * width) (32 * width) dropout 2 ((depth - 4) `div` 6)))) /\
  self !! "layer3" = Some (VModule (Sequential
    (wide_group (32 * width) (64 * width) dropout 2 ((depth - 4) `div` 6)))) /\
  self !! "bn" = Some (VModule (BatchNorm2d (64 * width) true)) /\
  self !! "relu" = Some (VModule (ReLU true)) /\
  self !! "avgpool" = Some (VModule (AdaptiveAvgPool2d 1)) /\
  self !! "fc" = Some (VModule (Linear (64 * width) num_classes)).

(** * Properties *)

(** ** Induction over modules *)

Section ModuleInduction.
Variable P : module -> Prop.
Hypothesis HConv2d : forall cin cout k s p b, P (Conv2d cin cout k s p b).
Hypothesis HBatchNorm2d : forall c a, P (BatchNorm2d c a).
Hypothesis HReLU : forall i, P (ReLU i).
Hypothesis HLinear : forall fin fout, P (Linear fin fout).
Hypothesis HDropout : forall p, P (Dropout p).
Hypothesis HPool : forall o, P (AdaptiveAvgPool2d o).
Hypothesis HSequential : forall ms, Forall P ms -> P (Sequential ms).
Hypothesis HResNet : forall arch pre fc, P fc -> P (ResNet arch pre fc).
Hypothesis HBasicBlock : forall conv1 bn1 relu conv2 bn2 ds stride,
  P conv1 -> P bn1 -> P relu -> P conv2 -> P bn2 ->
  (forall d, ds = Some d -> P d) ->
  P (MkBasicBlock conv1 bn1 relu conv2 bn2 ds stride).
Hypothesis HBasicBlockWRN : forall bn1 conv1 dropout bn2 conv2 relu sc use,
  P bn1 -> P conv1 -> P dropout -> P bn2 -> P conv2 -> P relu ->
  (forall s, sc = Some s -> P s) ->
  P (MkBasicBlockWRN16_8 bn1 conv1 dropout bn2 conv2 relu sc use).

Fixpoint module_nested_ind (m : module) : P m :=
  match m with
  | Conv2d cin cout k s p b => HConv2d cin cout k s p b
  | BatchNorm2d c a => HBatchNorm2d c a
  | ReLU i => HReLU i
  | Linear fin fout => HLinear fin fout
  | Dropout p => HDropout p
  | AdaptiveAvgPool2d o => HPool o
  | Sequential ms =>
      HSequential ms
        ((fix all (ms : list module) : Forall P ms :=
            match ms with
            | [] => Forall_nil_2 P
            | m' :: ms' => Forall_cons_2 P m' ms' (module_nested_ind m') (all ms')
            end) ms)
  | ResNet arch pre fc => HResNet arch pre fc (module_nested_ind fc)
  | MkBasicBlock conv1 bn1 relu conv2 bn2 ds stride =>
      HBasicBlock conv1 bn1 relu conv2 bn2 ds stride
        (module_nested_ind conv1) (module_nested_ind bn1)
        (module_nested_ind relu) (module_nested_ind conv2)
        (module_nested_ind bn2)
        (match ds as o return forall d, o = Some d -> P d with
         | Some d' => fun d E =>
             eq_ind d' P (module_nested_ind d') d (Some_inj _ _ E)
         | None => fun d E => False_ind _ (None_ne_Some d E)
         end)
  | MkBasicBlockWRN16_8 bn1 conv1 dropout bn2 conv2 relu sc use =>
      HBasicBlockWRN bn1 conv1 dropout bn2 conv2 relu sc use
        (module_nested_ind bn1) (module_nested_ind conv1)
        (module_nested_ind dropout) (module_nested_ind bn2)
        (module_nested_ind conv2) (module_nested_ind relu)
        (match sc as o return forall s, o = Some s -> P s with
         | Some s' => fun s E =>
             eq_ind s' P (module_nested_ind s') s (Some_inj _ _ E)
         | None => fun s E => False_ind _ (None_ne_Some s E)
         end)
  end.
End ModuleInduction.

(** ** The layers a computation applies *)

Section Traces.
Context `{Backend}.

Lemma traces_ret {A} (a : A) : traces (mret a) [].
Proof. intros σ. exists []. cbn. rewrite app_nil_r. auto. Qed.

Lemma traces_lift {A} (r : result A) : traces (lift r) [].
Proof. intros σ. exists []. cbn. rewrite app_nil_r. auto. Qed.

Lemma traces_load x : traces (load x) [].
Proof.
  intros σ. exists []. unfold load.
  destruct (heap σ !! x); cbn; rewrite app_nil_r; auto.
Qed.

Lemma traces_alloc t : traces (alloc t) [].
Proof. intros σ. exists []. cbn. rewrite app_nil_r. auto. Qed.

Lemma traces_store x t : traces (store x t) [].
Proof. intros σ. exists []. cbn. rewrite app_nil_r. auto. Qed.

Lemma traces_record_call m : traces (record_call m) [m].
Proof. intros σ. exists [m]. cbn. auto. Qed.

Lemma traces_bind {A B} (c : fwd A) (k : A -> fwd B) L1 L2 :
  traces c L1 -> (forall a, traces (k a) L2) ->
  traces (c ≫= k) (L1 ++ L2).
Proof.
  intros Hc Hk σ. unfold mbind, fwd_mbind, fwd_bind.
  destruct (Hc σ) as (d1 & E1 & P1 & F1).
  destruct (c σ) as [[a|e] σ1]; cbn in *.
  - rewrite (F1 a eq_refl) in E1.
    destruct (Hk a σ1) as (d2 & E2 & P2 & F2).
    exists (L1 ++ d2). rewrite E2, E1, <- app_assoc. split; [done|].
    split; [by apply prefix_app|].
    intros b Hb. by rewrite (F2 b Hb).
  - exists d1. split; [done|]. split; [by apply prefix_app_r|]. done.
Qed.

(** A computation that applies nothing may be put in front. *)
Lemma traces_bind_nil {A B} (c : fwd A) (k : A -> fwd B) L :
  traces c [] -> (forall a, traces (k a) L) -> traces (c ≫= k) L.
Proof. intros Hc Hk. by apply (traces_bind c k [] L). Qed.

Lemma traces_view_flat x : traces (view_flat x) [].
Proof.
  unfold view_flat.
  apply traces_bind_nil; [apply traces_load | intros t].
  apply traces_bind_nil; [apply traces_lift | intros t'].
  apply traces_alloc.
Qed.

Lemma traces_iadd out residual : traces (iadd out residual) [].
Proof.
  unfold iadd.
  apply traces_bind_nil; [apply traces_load | intros a].
  apply traces_bind_nil; [apply traces_load | intros b].
  apply traces_bind_nil; [apply traces_lift | intros c].
  apply traces_bind_nil; [apply traces_store | intros _].
  apply traces_ret.
Qed.

Lemma traces_call_layer m x : traces (call_layer m x) [m].
Proof.
  unfold call_layer.
  apply (traces_bind _ _ [m] []); [apply traces_record_call | intros _].
  apply traces_bind_nil; [apply traces_load | intros t].
  apply traces_bind_nil; [apply traces_lift | intros t'].
  assert (Hstore : traces (store x t';; mret x) []).
  { apply traces_bind_nil; [apply traces_store | intros _]. apply traces_ret. }
  destruct m as [| | [|] | | | | | | |]; try apply traces_alloc; [done|].
  destruct training; [apply traces_alloc | done].
Qed.

End Traces.

Section CallTraces.
Context `{B : Backend}.

Lemma call_Sequential_cons m ms x :
  call (Sequential (m :: ms)) x = (call m x ≫= call (Sequential ms)).
Proof. reflexivity. Qed.

Lemma traces_call m : forall x, traces (call m x) (topology m).
Proof.
  induction m as
    [ | | | | | | ms IH | arch pre fc IH
    | conv1 bn1 relu conv2 bn2 ds stride IH1 IH2 IH3 IH4 IH5 IHd
    | bn1 conv1 dropout bn2 conv2 relu sc use IH1 IH2 IH3 IH4 IH5 IH6 IHs ]
    using module_nested_ind; intros x; try apply traces_call_layer.
  - revert x. induction IH as [|m ms Hm _ IHms]; intros x.
    + apply traces_ret.
    + rewrite call_Sequential_cons. cbn [topology flat_map].
      apply traces_bind; [apply Hm | apply IHms].
  - cbn [call topology].
    apply (traces_bind _ _ [_] _); [apply traces_record_call | intros _].
    apply traces_bind_nil; [apply traces_load | intros t].
    apply traces_bind_nil; [apply traces_lift | intros f].
    apply traces_bind_nil; [apply traces_alloc | intros y].
    apply IH.
  - cbn [call topology]. unfold BasicBlock.forward.
    apply traces_bind; [apply IH1 | intros y1].
    apply traces_bind; [apply IH2 | intros y2].
    apply traces_bind; [apply IH3 | intros y3].
    apply traces_bind; [apply IH4 | intros y4].
    apply traces_bind; [apply IH5 | intros y5].
    apply traces_bind.
    { destruct ds as [d|]; [by apply IHd | apply traces_ret]. }
    intros r.
    apply traces_bind_nil; [apply traces_iadd | intros y6].
    rewrite <- (app_nil_r (topology relu)).
    apply traces_bind; [apply IH3 | intros y7]. apply traces_ret.
  - cbn [call topology]. unfold BasicBlockWRN16_8.forward.
    apply traces_bind; [apply IH1 | intros y1].
    apply traces_bind; [apply IH6 | intros y2].
    apply traces_bind.
    { destruct use; [|apply traces_ret].
      destruct sc as [s|]; [by apply IHs | apply traces_lift]. }
    intros r.
    apply traces_bind; [apply IH2 | intros y3].
    apply traces_bind; [apply IH4 | intros y4].
    apply traces_bind; [apply IH6 | intros y5].
    apply traces_bind; [apply IH3 | intros y6].
    rewrite <- (app_nil_r (topology conv2)).
    apply traces_bind; [apply IH5 | intros y7].
    apply traces_bind_nil; [apply traces_iadd | intros y8]. apply traces_ret.
Qed.

(** Fetching an attribute and calling the module it holds. *)
Lemma traces_attr_call self name x (k : nat -> fwd nat) L :
  (forall y, traces (k y) L) ->
  traces (m ← self_module self name; y ← call m x; k y)
         (attr_topology self name ++ L).
Proof.
  intros Hk. unfold self_module, self_attr, attr_topology.
  destruct (self !! name) as [[n|b|m]|]; intros σ; cbn.
  - exists []. rewrite app_nil_r. split_and!; [done|apply prefix_nil|done].
  - exists []. rewrite app_nil_r. split_and!; [done|apply prefix_nil|done].
  - apply (traces_bind (call m x) k); [apply traces_call | apply Hk].
  - exists []. rewrite app_nil_r. split_and!; [done|apply prefix_nil|done].
Qed.

Lemma traces_attr_call_last self name x :
  traces (m ← self_module self name; call m x) (attr_topology self name).
Proof.
  unfold self_module, self_attr, attr_topology.
  destruct (self !! name) as [[n|b|m]|]; intros σ; cbn.
  - exists []. rewrite app_nil_r. split_and!; [done|apply prefix_nil|done].
  - exists []. rewrite app_nil_r. split_and!; [done|apply prefix_nil|done].
  - apply traces_call.
  - exists []. rewrite app_nil_r. split_and!; [done|apply prefix_nil|done].
Qed.

Lemma traces_attr_call_ret self name x :
  traces (m ← self_module self name; y ← call m x; mret y)
         (attr_topology self name).
Proof.
  rewrite <- (app_nil_r (attr_topology self name)).
  apply traces_attr_call. intros y. apply traces_ret.
Qed.

Lemma traces_sn_MLP self x :
  traces (sn_MLP.forward self x) (attr_topology self "layers").
Proof.
  unfold sn_MLP.forward.
  apply traces_bind_nil; [apply traces_view_flat | intros y].
  apply traces_attr_call_last.
Qed.

Lemma traces_sn_LinearLayer self x :
  traces (sn_LinearLayer.forward self x)
         (attr_topology self "bn0" ++ attr_topology self "fc1").
Proof.
  unfold sn_LinearLayer.forward.
  apply traces_attr_call. intros y.
  apply traces_bind_nil; [apply traces_view_flat | intros z].
  apply traces_attr_call_ret.
Qed.

Lemma traces_sn_Resnet50 self x :
  traces (sn_Resnet50.forward self x) (attr_topology self "model_ft").
Proof. apply traces_attr_call_ret. Qed.

Lemma traces_WideResNet16_8 self x :
  traces (WideResNet16_8.forward self x)
         (instance_topology (Is_WideResNet16_8 self)).
Proof.
  unfold WideResNet16_8.forward, instance_topology.
  do 7 (apply traces_attr_call; intros ?).
  apply traces_bind_nil; [apply traces_view_flat | intros z].
  apply traces_attr_call_ret.
Qed.

Lemma traces_sn_CNN self x :
  traces (sn_CNN.forward self x) (instance_topology (Is_sn_CNN self)).
Proof.
  unfold sn_CNN.forward, instance_topology, self_bool, self_attr.
  destruct (self !! "standard") as [[n|standard|m]|] eqn:Hstd;
    try (intros σ; exists []; cbn; rewrite app_nil_r;
         split_and!; [done|apply prefix_nil|done]).
  change (traces
    (_ ← (if negb standard then mret tt else mret tt);
     m ← self_module self "bn0"; y ← call m x;
     m ← self_module self "init_conv"; y ← call m y;
     y ← (if standard
          then layer1 ← self_module self "layer1"; call layer1 y
          else mret y);
     m ← self_module self "layer2"; y ← call m y;
     m ← self_module self "layer3"; y ← call m y;
     m ← self_module self "avgpool"; y ← call m y;
     y ← view_flat y;
     m ← self_module self "fc"; y ← call m y; mret y)
    (attr_topology self "bn0" ++ attr_topology self "init_conv" ++
     (if standard then attr_topology self "layer1" else []) ++
     attr_topology self "layer2" ++ attr_topology self "layer3" ++
     attr_topology self "avgpool" ++ attr_topology self "fc")).
  apply traces_bind_nil; [destruct standard; apply traces_ret | intros _].
  do 2 (apply traces_attr_call; intros ?).
  apply traces_bind.
  { destruct standard; [apply traces_attr_call_last | apply traces_ret]. }
  intros ?.
  do 3 (apply traces_attr_call; intros ?).
  apply traces_bind_nil; [apply traces_view_flat | intros z].
  apply traces_attr_call_ret.
Qed.

End CallTraces.

(** C5. The layers a forward pass applies are fixed once the instance is
    built: for every instance of [sn_MLP], [sn_LinearLayer], [sn_CNN],
    [sn_Resnet50], [WideResNet16_8], [BasicBlock] or [BasicBlockWRN16_8]
    there is one sequence of layers, read off the attributes set at
    construction (among them [standard], [downsample] and [use_conv1x1]),
    such that every call of [forward], in any mode, on any input tensor and
    from any state of the references, applies the layers of that sequence in
    that order; a call that returns has applied all of it, a call that
    raises has applied a prefix. *)
Theorem forward_topology_fixed (i : instance) :
  exists plan : list module,
    plan = instance_topology i /\
    forall (B : Backend) (x : nat) (σ : fstate),
    exists done : list module,
      applied (instance_forward i x σ).2 = applied σ ++ done /\
      done `prefix_of` plan /\
      (forall y, (instance_forward i x σ).1 = Ok y -> done = plan).
Proof.
  exists (instance_topology i). split; [done|]. intros B x.
  change (traces (instance_forward i x) (instance_topology i)).
  destruct i; cbn [instance_forward].
  - apply traces_sn_MLP.
  - apply traces_sn_LinearLayer.
  - apply traces_sn_CNN.
  - apply traces_sn_Resnet50.
  - apply traces_WideResNet16_8.
  - apply (traces_call (MkBasicBlock _ _ _ _ _ _ stride)).
  - apply (traces_call (MkBasicBlockWRN16_8 _ _ _ _ _ _ _ _)).
Qed.

(** ** References and values

    [call] against [denote]. *)

Section Soundness.
Context `{B : Backend}.
Local Open Scope nat_scope.

Lemma sound_layer m x σ t :
  heap σ !! x = Some t ->
  match call_layer m x σ with
  | (Ok y, σ') =>
      length (heap σ) <= length (heap σ') /\
      (forall l, l < length (heap σ) -> l <> x -> heap σ' !! l = heap σ !! l) /\
      (y = x \/ length (heap σ) <= y) /\
      (keeps m = true -> length (heap σ) <= y /\ heap σ' !! x = Some t) /\
      exists t', layer_fn m t = Ok t' /\ heap σ' !! y = Some t'
  | (Raise e, _) => layer_fn m t = Raise e
  end.
Proof.
  intros Hx. pose proof (lookup_lt_Some _ _ _ Hx) as Hlt.
  unfold call_layer, mbind, fwd_mbind, fwd_bind, record_call, load, lift; cbn.
  rewrite Hx. destruct (layer_fn m t) as [t'|e] eqn:E; [|done].
  assert (Halloc : forall σ0, heap σ0 = heap σ ->
    match alloc t' σ0 with
    | (Ok y, σ') =>
        length (heap σ) <= length (heap σ') /\
        (forall l, l < length (heap σ) -> l <> x -> heap σ' !! l = heap σ !! l) /\
        (y = x \/ length (heap σ) <= y) /\
        (keeps m = true -> length (heap σ) <= y /\ heap σ' !! x = Some t) /\
        exists t'', Ok t' = Ok t'' /\ heap σ' !! y = Some t''
    | (Raise e, _) => Ok t' = Raise e
    end).
  { intros σ0 E0. unfold alloc; cbn. rewrite E0, length_app; cbn.
    split_and!; [lia | | by right | |].
    - intros l Hl _. by rewrite lookup_app_l.
    - intros _. split; [lia|]. by rewrite lookup_app_l.
    - exists t'. split; [done|]. by rewrite list_lookup_middle. }
  assert (Hstore : forall σ0, heap σ0 = heap σ -> keeps m = false ->
    match (store x t';; mret x) σ0 with
    | (Ok y, σ') =>
        length (heap σ) <= length (heap σ') /\
        (forall l, l < length (heap σ) -> l <> x -> heap σ' !! l = heap σ !! l) /\
        (y = x \/ length (heap σ) <= y) /\
        (keeps m = true -> length (heap σ) <= y /\ heap σ' !! x = Some t) /\
        exists t'', Ok t' = Ok t'' /\ heap σ' !! y = Some t''
    | (Raise e, _) => Ok t' = Raise e
    end).
  { intros σ0 E0 Hk.
    unfold mbind, fwd_mbind, fwd_bind, store, mret, fwd_mret, fwd_ret.
    cbn [heap]. rewrite E0, length_insert.
    split_and!; [lia | | by left | by rewrite Hk |].
    - intros l Hl Hne. by rewrite list_lookup_insert_ne.
    - exists t'. split; [done|]. by rewrite list_lookup_insert_eq. }
  destruct m as [| | [|] | | | | | | |]; try (by apply Halloc).
  - by apply Hstore.
  - destruct training; [by apply Halloc | by apply Hstore].
Qed.

Lemma chain_start m x σ0 t :
  sound m -> keeps m = true -> heap σ0 !! x = Some t ->
  match call m x σ0 with
  | (Ok y, σ) =>
      exists v, denote m t = Ok v /\ chain x σ0 σ y v /\ heap σ !! x = Some t
  | (Raise e, _) => denote m t = Raise e
  end.
Proof.
  intros Hm Hk Hx. pose proof (lookup_lt_Some _ _ _ Hx) as Hxlt.
  specialize (Hm x σ0 t Hx).
  destruct (call m x σ0) as [[y|e] σ]; [|done].
  destruct Hm as (Hlen & Hframe & _ & Hkeep & v & Hv & Hy).
  destruct (Hkeep Hk) as [Hfresh Hx'].
  exists v. split; [done|]. split; [|done]. by split_and!.
Qed.

Lemma chain_step m x σ0 σ y v :
  sound m -> chain x σ0 σ y v ->
  match call m y σ with
  | (Ok z, σ') =>
      exists v', denote m v = Ok v' /\ chain x σ0 σ' z v' /\
        heap σ' !! x = heap σ !! x /\
        (forall r vr, r <> y -> heap σ !! r = Some vr ->
           r <> z /\ heap σ' !! r = Some vr)
  | (Raise e, _) => denote m v = Raise e
  end.
Proof.
  intros Hm (Hxlt & Hlen & Hagree & Hfresh & Hy). specialize (Hm y σ v Hy).
  destruct (call m y σ) as [[z|e] σ']; [|done].
  destruct Hm as (Hlen' & Hframe & Hz & _ & v' & Hv' & Hz').
  exists v'. split; [done|]. split_and!; [|by apply Hframe; lia|].
  - split_and!; [done | lia | | lia | done].
    intros l Hl Hne. rewrite Hframe; [auto | lia | lia].
  - intros r vr Hne Hr. pose proof (lookup_lt_Some _ _ _ Hr) as Hrlt.
    split; [lia|]. by rewrite Hframe.
Qed.

Lemma iadd_spec out r σ a b :
  heap σ !! out = Some a -> heap σ !! r = Some b ->
  iadd out r σ =
    match tensor_add a b with
    | Ok c => (Ok out, {| heap := <[out := c]> (heap σ); applied := applied σ |})
    | Raise e => (Raise e, σ)
    end.
Proof.
  intros Ha Hb. unfold iadd, mbind, fwd_mbind, fwd_bind, load, lift, store.
  rewrite Ha, Hb. by destruct (tensor_add a b).
Qed.

(** [out += r] inside a chain. *)
Lemma chain_iadd x σ0 σ y v r vr :
  chain x σ0 σ y v -> heap σ !! r = Some vr ->
  match iadd y r σ with
  | (Ok z, σ') =>
      exists s, tensor_add v vr = Ok s /\ z = y /\ chain x σ0 σ' y s /\
        heap σ' !! x = heap σ !! x
  | (Raise e, _) => tensor_add v vr = Raise e
  end.
Proof.
  intros (Hxlt & Hlen & Hagree & Hfresh & Hy) Hr.
  pose proof (lookup_lt_Some _ _ _ Hy) as Hylt.
  rewrite (iadd_spec y r σ v vr Hy Hr).
  destruct (tensor_add v vr) as [s|e]; [|done].
  exists s. split_and!; [done | done | | by cbn [heap]; rewrite list_lookup_insert_ne; [|lia]].
  unfold chain; cbn [heap]. split_and!; [done | by rewrite length_insert | | done | by rewrite list_lookup_insert_eq].
  intros l Hl Hne. rewrite list_lookup_insert_ne; [auto | lia].
Qed.

(** Calling an optional module on the block's argument while a chain is at
    [y]: the chain's tensor is left alone. *)
Lemma side_call (o : option module) x t σ0 σ y v :
  (forall d, o = Some d -> sound d) ->
  heap σ !! x = Some t -> chain x σ0 σ y v ->
  match (match o with Some d => call d x | None => mret x end) σ with
  | (Ok r, σ') =>
      exists vr,
        match o with Some d => denote d t | None => Ok t end = Ok vr /\
        chain x σ0 σ' y v /\
        heap σ' !! r = Some vr /\
        (match o with Some d => keeps d | None => true end = true ->
         heap σ' !! x = Some t)
  | (Raise e, _) =>
      match o with Some d => denote d t | None => Ok t end = Raise e
  end.
Proof.
  intros So Hx (Hxlt & Hlen & Hagree & Hfresh & Hy).
  pose proof (lookup_lt_Some _ _ _ Hy) as Hylt.
  destruct o as [d|]; cbn.
  - specialize (So d eq_refl x σ t Hx).
    destruct (call d x σ) as [[r|e] σ']; [|done].
    destruct So as (Hlen' & Hframe & Hr & Hkeep & vr & Hvr & Hr').
    exists vr. split; [done|]. split_and!; [|done|].
    + split_and!; [done | lia | | lia |].
      * intros l Hl Hne. rewrite Hframe; [auto | lia | lia].
      * rewrite Hframe; [done | lia | lia].
    + intros Hk. by destruct (Hkeep Hk).
  - exists t. by split_and!.
Qed.

Ltac step_with H :=
  let y := fresh "y" in let e := fresh "e" in let σ := fresh "σ" in
  let v := fresh "v" in let Hv := fresh "Hv" in let Hc := fresh "Hc" in
  pose proof H as Hc;
  match type of Hc with
  | match ?c with _ => _ end =>
      destruct c as [[y|e] σ];
      [ destruct Hc as (v & Hv & Hc); rewrite ?Hv | by rewrite ?Hc ]
  end.

Lemma sound_BasicBlock conv1 bn1 relu conv2 bn2 ds stride :
  sound conv1 -> sound bn1 -> sound relu -> sound conv2 -> sound bn2 ->
  (forall d, ds = Some d -> sound d) ->
  keeps conv1 = true ->
  sound (MkBasicBlock conv1 bn1 relu conv2 bn2 ds stride).
Proof.
  intros S1 S2 S3 S4 S5 Sd K1 x σ0 t Hx.
  cbn [call denote]. unfold BasicBlock.forward, mbind, fwd_mbind, fwd_bind, result_mbind.
  step_with (chain_start conv1 x σ0 t S1 K1 Hx).
  destruct Hc as (Hc & X0).
  step_with (chain_step bn1 x σ0 _ _ _ S2 Hc).
  destruct Hc0 as (Hc0 & X1 & _). rewrite X0 in X1.
  step_with (chain_step relu x σ0 _ _ _ S3 Hc0).
  destruct Hc1 as (Hc1 & X2 & _). rewrite X1 in X2.
  step_with (chain_step conv2 x σ0 _ _ _ S4 Hc1).
  destruct Hc2 as (Hc2 & X3 & _). rewrite X2 in X3.
  step_with (chain_step bn2 x σ0 _ _ _ S5 Hc2).
  destruct Hc3 as (Hc3 & X4 & _). rewrite X3 in X4.
  step_with (side_call ds x t σ0 _ _ _ Sd X4 Hc3).
  destruct Hc4 as (Hc4 & Hr & Hkd).
  step_with (chain_iadd x σ0 _ _ _ _ _ Hc4 Hr).
  destruct Hc5 as (-> & Hc5 & X6).
  step_with (chain_step relu x σ0 _ _ _ S3 Hc5).
  destruct Hc6 as (Hc6 & X7 & _). rewrite X6 in X7.
  destruct Hc6 as (Hxlt & Hlen & Hagree & Hfresh & Hy).
  cbn. split_and!; [done | done | by right | | by exists v6].
  intros [_ Hk]%andb_prop. split; [done|]. rewrite X7. auto.
Qed.

Lemma sound_BasicBlockWRN16_8 bn1 conv1 dropout bn2 conv2 relu sc use :
  sound bn1 -> sound conv1 -> sound dropout -> sound bn2 -> sound conv2 ->
  sound relu ->
  keeps bn1 = true ->
  (use = true -> forall s, sc = Some s -> sound s /\ keeps s = true) ->
  sound (MkBasicBlockWRN16_8 bn1 conv1 dropout bn2 conv2 relu sc use).
Proof.
  intros S1 S2 S3 S4 S5 S6 K1 Ss x σ0 t Hx.
  cbn [call denote].
  unfold BasicBlockWRN16_8.forward, mbind, fwd_mbind, fwd_bind, result_mbind.
  step_with (chain_start bn1 x σ0 t S1 K1 Hx).
  destruct Hc as (Hc & X0).
  step_with (chain_step relu x σ0 _ _ _ S6 Hc).
  destruct Hc0 as (Hc0 & X1 & _). rewrite X0 in X1.
  (* the shortcut *)
  assert (Hsc :
    match (if use then
             match sc with
             | Some s => call s y0
             | None => lift (Raise (AttributeError "shortcut"))
             end
           else mret x) σ1 with
    | (Ok r, σ') =>
        exists vr,
          (if use then
             match sc with
             | Some s => denote s v0
             | None => Raise (AttributeError "shortcut")
             end
           else Ok t) = Ok vr /\
          chain x σ0 σ' y0 v0 /\ heap σ' !! x = Some t /\
          r <> y0 /\ heap σ' !! r = Some vr
    | (Raise e, _) =>
        (if use then
           match sc with
           | Some s => denote s v0
           | None => Raise (AttributeError "shortcut")
           end
         else Ok t) = Raise e
    end).
  { destruct Hc0 as (Hxlt & Hlen & Hagree & Hfresh & Hy).
    destruct use; [destruct sc as [s|]|]; cbn.
    - destruct (Ss eq_refl s eq_refl) as [Hs Hks].
      specialize (Hs y0 σ1 v0 Hy).
      destruct (call s y0 σ1) as [[r|e] σ']; [|done].
      destruct Hs as (Hlen' & Hframe & Hr & Hkeep & vr & Hvr & Hr').
      destruct (Hkeep Hks) as [Hrfresh Hy'].
      pose proof (lookup_lt_Some _ _ _ Hy) as Hylt.
      exists vr. split; [done|]. split_and!; [| |lia|done].
      + split_and!; [done | lia | | lia | done].
        intros l Hl Hne. rewrite Hframe; [auto | lia | lia].
      + rewrite Hframe; [done | lia | lia].
    - done.
    - exists t. split; [done|]. split_and!; [by split_and! | done | lia | done]. }
  step_with Hsc. destruct Hc1 as (Hc1 & X2 & Hne & Hr).
  step_with (chain_step conv1 x σ0 _ _ _ S2 Hc1).
  destruct Hc2 as (Hc2 & X3 & A3). rewrite X2 in X3.
  destruct (A3 _ _ Hne Hr) as [Hne3 Hr3].
  step_with (chain_step bn2 x σ0 _ _ _ S4 Hc2).
  destruct Hc3 as (Hc3 & X4 & A4). rewrite X3 in X4.
  destruct (A4 _ _ Hne3 Hr3) as [Hne4 Hr4].
  step_with (chain_step relu x σ0 _ _ _ S6 Hc3).
  destruct Hc4 as (Hc4 & X5 & A5). rewrite X4 in X5.
  destruct (A5 _ _ Hne4 Hr4) as [Hne5 Hr5].
  step_with (chain_step dropout x σ0 _ _ _ S3 Hc4).
  destruct Hc5 as (Hc5 & X6 & A6). rewrite X5 in X6.
  destruct (A6 _ _ Hne5 Hr5) as [Hne6 Hr6].
  step_with (chain_step conv2 x σ0 _ _ _ S5 Hc5).
  destruct Hc6 as (Hc6 & X7 & A7). rewrite X6 in X7.
  destruct (A7 _ _ Hne6 Hr6) as [Hne7 Hr7].
  step_with (chain_iadd x σ0 _ _ _ _ _ Hc6 Hr7).
  destruct Hc7 as (-> & Hc7 & X8). rewrite X7 in X8.
  destruct Hc7 as (Hxlt & Hlen & Hagree & Hfresh & Hy).
  cbn. split_and!; [done | done | by right | done | by exists v7].
Qed.

Lemma sound_Sequential ms : Forall sound ms -> sound (Sequential ms).
Proof.
  induction 1 as [|m ms Hm _ IH]; intros x σ t Hx.
  - cbn. split_and!; [done | done | by left | done | by exists t].
  - rewrite call_Sequential_cons.
    change (denote (Sequential (m :: ms)) t)
      with (denote m t ≫= denote (Sequential ms)).
    unfold mbind, fwd_mbind, fwd_bind, result_mbind.
    specialize (Hm x σ t Hx).
    destruct (call m x σ) as [[y|e] σ1]; [|by rewrite Hm].
    destruct Hm as (Hlen & Hframe & Hy & Hkeep & v & Hv & Hy').
    rewrite Hv. specialize (IH y σ1 v Hy').
    destruct (call (Sequential ms) y σ1) as [[z|e] σ2]; [|done].
    destruct IH as (Hlen2 & Hframe2 & Hz & _ & w & Hw & Hz').
    pose proof (lookup_lt_Some _ _ _ Hx) as Hxlt.
    split_and!; [lia | | lia | | by exists w].
    + intros l Hl Hne. rewrite Hframe2; [auto | lia | lia].
    + intros Hk. destruct (Hkeep Hk) as [Hfresh Hx1].
      split; [lia|]. rewrite Hframe2; [done | lia | lia].
Qed.

Lemma sound_ResNet arch pre fc : sound fc -> sound (ResNet arch pre fc).
Proof.
  intros Hfc x σ t Hx. pose proof (lookup_lt_Some _ _ _ Hx) as Hxlt.
  cbn [call denote].
  unfold mbind, fwd_mbind, fwd_bind, result_mbind, record_call, load, lift, alloc.
  cbn [heap applied]. rewrite Hx.
  destruct (resnet_features arch pre t) as [f|e]; [|done].
  match goal with |- context [call fc ?y ?σ1] =>
    specialize (Hfc y σ1 f); destruct (call fc y σ1) as [[z|e] σ2] end;
    cbn [heap] in Hfc.
  - destruct Hfc as (Hlen & Hframe & Hz & _ & w & Hw & Hz').
    { by rewrite list_lookup_middle. }
    rewrite length_app in *; cbn in Hlen, Hframe, Hz.
    split_and!; [lia | | lia | | by exists w].
    + intros l Hl Hne. rewrite Hframe; [by rewrite lookup_app_l | lia | lia].
    + intros _. split; [lia|].
      rewrite Hframe; [by rewrite lookup_app_l | lia | lia].
  - apply Hfc. by rewrite list_lookup_middle.
Qed.

Lemma sound_leaf m :
  (forall x, call m x = call_layer m x) ->
  (forall t, denote m t = layer_fn m t) ->
  sound m.
Proof.
  intros Hcall Hden x σ t Hx. rewrite Hcall, Hden.
  pose proof (sound_layer m x σ t Hx) as Hl.
  by destruct (call_layer m x σ) as [[y|e] σ'].
Qed.

Theorem call_sound m : alias_free m = true -> sound m.
Proof.
  induction m as
    [ | | i | | | | ms IH | arch pre fc IH
    | conv1 bn1 relu conv2 bn2 ds stride IH1 IH2 IH3 IH4 IH5 IHd
    | bn1 conv1 dropout bn2 conv2 relu sc use IH1 IH2 IH3 IH4 IH5 IH6 IHs ]
    using module_nested_ind; intros Hwf;
    try (apply sound_leaf; [done | done]).
  - apply sound_Sequential. cbn in Hwf.
    induction IH as [|m ms Hm _ IHms]; [done|].
    cbn in Hwf. apply andb_prop in Hwf as [H1 H2]. constructor; auto.
  - apply sound_ResNet. auto.
  - cbn in Hwf. repeat (apply andb_prop in Hwf as [Hwf ?]).
    apply sound_BasicBlock; auto.
    intros d ->. auto.
  - cbn in Hwf. repeat (apply andb_prop in Hwf as [Hwf ?]).
    apply sound_BasicBlockWRN16_8; auto.
    intros -> s ->. 
    match goal with Hs : _ && _ = true |- _ => apply andb_prop in Hs as [? ?] end.
    split; [by apply IHs | done].
Qed.
End Soundness.


(** A call returns a reference to the value the reference semantics gives,
    and raises what it raises. *)
Lemma call_denote `{B : Backend} (m : module) (x : nat) (σ : fstate) (t : Tensor) :
  alias_free m = true -> heap σ !! x = Some t ->
  returned (call m x σ) = denote m t.
Proof.
  intros Hm Hx. pose proof (call_sound m Hm x σ t Hx) as Hs.
  unfold returned. destruct (call m x σ) as [[y|e] σ']; [|done].
  destruct Hs as (_ & _ & _ & _ & t' & Ht' & Hy). by rewrite Hy, Ht'.
Qed.

(** The blocks the constructors build overwrite nothing they still need. *)
Lemma BasicBlock_alias_free inplanes planes stride downsample :
  match downsample with Some d => alias_free d | None => true end = true ->
  alias_free (BasicBlock.__init__ inplanes planes stride downsample) = true.
Proof. intros Hd. cbn. by rewrite Hd. Qed.

Lemma BasicBlockWRN16_8_alias_free inplanes planes dropout stride :
  alias_free (BasicBlockWRN16_8.__init__ inplanes planes dropout stride) = true.
Proof.
  unfold BasicBlockWRN16_8.__init__.
  by destruct (negb (stride =? 1) || negb (inplanes =? planes))%Z.
Qed.

(** C2. [BasicBlock.forward] is a residual unit.  For a block built by
    [BasicBlock.__init__] and any input tensor [t], whatever else the
    references hold, the tensor returned is
    [relu(bn2(conv2(relu(bn1(conv1(t))))) + r)], where [r] is
    [downsample(t)] when a downsample module was given and [t] itself
    otherwise; a layer that raises makes the call raise the same exception.
    The in-place ReLU and the in-place addition of the block do not disturb
    [t] before it is read.  The downsample module is any module that is
    itself [alias_free]. *)
Theorem BasicBlock_forward_residual (B : Backend)
    (inplanes planes stride : Z) (downsample : option module)
    (x : nat) (σ : fstate) (t : Tensor) :
  match downsample with Some d => alias_free d | None => true end = true ->
  heap σ !! x = Some t ->
  returned (call (BasicBlock.__init__ inplanes planes stride downsample) x σ) =
    (out ← layer_fn (conv3x3 inplanes planes stride) t;
     out ← layer_fn (BatchNorm2d planes true) out;
     out ← layer_fn (ReLU true) out;
     out ← layer_fn (conv3x3 planes planes 1) out;
     out ← layer_fn (BatchNorm2d planes true) out;
     r ← match downsample with
         | Some d => denote d t
         | None => Ok t
         end;
     sum ← tensor_add out r;
     layer_fn (ReLU true) sum).
Proof.
  intros Hd Hx.
  rewrite (call_denote _ x σ t); [|by apply BasicBlock_alias_free|done].
  reflexivity.
Qed.

Lemma BasicBlock_forward_residual_witness :
  let B := Shape.backend true in
  let downsample :=
    Some (Sequential [Conv2d 16 32 1 1 0 false; BatchNorm2d 32 true]) in
  let σ := {| heap := [[4; 16; 8; 8]]; applied := [] |} in
  match downsample with Some d => alias_free d | None => true end = true /\
  heap σ !! 0%nat = Some [4; 16; 8; 8] /\
  returned (call (BasicBlock.__init__ 16 32 1 downsample) 0%nat σ) =
    Ok [4; 32; 8; 8].
Proof.
  intros B downsample σ. split; [reflexivity|]. split; [reflexivity|].
  rewrite (BasicBlock_forward_residual B 16 32 1 downsample 0%nat σ [4; 16; 8; 8]);
    reflexivity.
Defined.

(** C8. The skip connection of [BasicBlockWRN16_8] is taken after the first
    activation.  [use_conv1x1] is set exactly when [stride != 1] or
    [inplanes != planes]; then the shortcut is the 1x1 convolution of
    [relu(bn1(t))], and otherwise it is the input [t] itself.  The tensor
    returned is [conv2(dropout(relu(bn2(conv1(relu(bn1(t))))))) + shortcut]:
    the addition is the last operation, and the last layer applied is
    [conv2]. *)
Theorem BasicBlockWRN16_8_preactivation (B : Backend)
    (inplanes planes : Z) (dropout : Q) (stride : Z)
    (x : nat) (σ : fstate) (t : Tensor) :
  heap σ !! x = Some t ->
  let use_conv1x1 := negb (stride =? 1) || negb (inplanes =? planes) in
  let block := BasicBlockWRN16_8.__init__ inplanes planes dropout stride in
  (use_conv1x1 = true <-> stride <> 1 \/ inplanes <> planes) /\
  block =
    MkBasicBlockWRN16_8
      (BatchNorm2d inplanes true) (conv3x3 inplanes planes stride)
      (Dropout dropout) (BatchNorm2d planes true) (conv3x3 planes planes 1)
      (ReLU true)
      (if use_conv1x1 then Some (conv1x1 inplanes planes stride) else None)
      use_conv1x1 /\
  returned (call block x σ) =
    (act ← layer_fn (BatchNorm2d inplanes true) t;
     act ← layer_fn (ReLU true) act;
     shortcut ← (if use_conv1x1
                 then layer_fn (conv1x1 inplanes planes stride) act
                 else Ok t);
     out ← layer_fn (conv3x3 inplanes planes stride) act;
     out ← layer_fn (BatchNorm2d planes true) out;
     out ← layer_fn (ReLU true) out;
     out ← layer_fn (Dropout dropout) out;
     out ← layer_fn (conv3x3 planes planes 1) out;
     tensor_add out shortcut) /\
  last (topology block) = Some (conv3x3 planes planes 1).
Proof.
  intros Hx use_conv1x1 block. split_and!.
  - unfold use_conv1x1. rewrite orb_true_iff, !negb_true_iff, !Z.eqb_neq. tauto.
  - unfold block, BasicBlockWRN16_8.__init__. fold use_conv1x1.
    by destruct use_conv1x1.
  - rewrite (call_denote _ x σ t);
      [|by apply BasicBlockWRN16_8_alias_free|done].
    unfold block, BasicBlockWRN16_8.__init__. fold use_conv1x1.
    by destruct use_conv1x1.
  - unfold block, BasicBlockWRN16_8.__init__. fold use_conv1x1.
    by destruct use_conv1x1.
Qed.

Lemma BasicBlockWRN16_8_preactivation_witness :
  let B := Shape.backend true in
  let σ := {| heap := [[4; 16; 32; 32]]; applied := [] |} in
  heap σ !! 0%nat = Some [4; 16; 32; 32] /\
  returned (call (BasicBlockWRN16_8.__init__ 16 128 (3 # 10) 1) 0%nat σ) =
    Ok [4; 128; 32; 32].
Proof.
  intros B σ. split; [reflexivity|].
  destruct (BasicBlockWRN16_8_preactivation B 16 128 (3 # 10) 1 0%nat σ
              [4; 16; 32; 32] eq_refl) as (_ & _ & Hret & _).
  rewrite Hret. reflexivity.
Defined.

(** ** Construction *)

Section InitSteps.
Context {A B : Type}.
Implicit Types (self : gmap string value).

Lemma bind_ret (a : A) (k : A -> init B) self :
  (mret a ≫= k) self = k a self.
Proof. reflexivity. Qed.

Lemma bind_setattr name v (k : unit -> init B) self :
  (setattr name v ≫= k) self = k tt (<[name := v]> self).
Proof. reflexivity. Qed.

Lemma bind_getattr_int name n (k : Z -> init B) self :
  self !! name = Some (VInt n) ->
  (getattr_int name ≫= k) self = k n self.
Proof.
  intros Hn. unfold getattr_int, getattr, mbind, init_mbind, init_bind.
  by rewrite Hn.
Qed.

Lemma bind_getattr_int_missing name (k : Z -> init B) self :
  self !! name = None ->
  (getattr_int name ≫= k) self = Raise (AttributeError name).
Proof.
  intros Hn. unfold getattr_int, getattr, mbind, init_mbind, init_bind.
  by rewrite Hn.
Qed.

Lemma bind_assoc {C} (c : init A) (f : A -> init B) (g : B -> init C) self :
  ((c ≫= f) ≫= g) self = (c ≫= (fun a => f a ≫= g)) self.
Proof.
  unfold mbind, init_mbind, init_bind. by destruct (c self) as [[a s]|e].
Qed.

Lemma bind_ok (c : init A) (k : A -> init B) self a self' :
  c self = Ok (a, self') -> (c ≫= k) self = k a self'.
Proof. intros Hc. unfold mbind, init_mbind, init_bind. by rewrite Hc. Qed.

Lemma bind_ok_inv (c : init A) (k : A -> init B) self r :
  (c ≫= k) self = Ok r ->
  exists a self', c self = Ok (a, self') /\ k a self' = Ok r.
Proof.
  unfold mbind, init_mbind, init_bind.
  destruct (c self) as [[a self']|e]; [eauto | discriminate].
Qed.

(** A constructor call either raises or hands the module on. *)
Lemma bind_new (m : module) (k : module -> init B) self :
  (new m ≫= k) self =
  match rejects m with Some e => Raise e | None => k m self end.
Proof.
  unfold new, mbind, init_mbind, init_bind. by destruct (rejects m).
Qed.

Lemma bind_new_ok (m : module) (k : module -> init B) self :
  rejects m = None -> (new m ≫= k) self = k m self.
Proof. intros Hm. by rewrite bind_new, Hm. Qed.

Lemma bind_new_inv (m : module) (k : module -> init B) self r :
  (new m ≫= k) self = Ok r -> rejects m = None /\ k m self = Ok r.
Proof. rewrite bind_new. by destruct (rejects m). Qed.

End InitSteps.

Lemma construct_ok_inv (c : init unit) (self : gmap string value) :
  construct c = Ok self -> c ∅ = Ok (tt, self).
Proof.
  unfold construct. destruct (c ∅) as [[[] self']|e]; [|discriminate].
  by intros [= ->].
Qed.

(** *** What the constructors accept *)

(** The first constructor to fail decides. *)
Lemma rejects_first (e : exn) (later : option exn) : Some e ∪ later = Some e.
Proof. by destruct later. Qed.

(** Closes [rejects m = None] for a module whose sizes are known not to be
    negative. *)
Ltac accepted :=
  cbn [rejects foldr conv3x3 conv1x1];
  repeat match goal with
         | |- context [ ?a <? 0 ] => destruct (Z.ltb_spec a 0); [lia|]
         end;
  reflexivity.

Lemma rejects_Dropout (p : Q) :
  (0 <= p)%Q -> (p <= 1)%Q -> rejects (Dropout p) = None.
Proof.
  intros H0 H1. cbn [rejects].
  by rewrite (proj2 (Qle_bool_iff 0 p) H0), (proj2 (Qle_bool_iff p 1) H1).
Qed.

Lemma rejects_BasicBlock inplanes planes stride downsample :
  0 <= inplanes -> 0 <= planes ->
  rejects (BasicBlock.__init__ inplanes planes stride downsample) = None.
Proof. intros Hi Hp. unfold BasicBlock.__init__. accepted. Qed.

Lemma rejects_BasicBlockWRN16_8 inplanes planes dropout stride :
  0 <= inplanes -> 0 <= planes -> rejects (Dropout dropout) = None ->
  rejects (BasicBlockWRN16_8.__init__ inplanes planes dropout stride) = None.
Proof.
  intros Hi Hp Hd. unfold BasicBlockWRN16_8.__init__.
  destruct (negb (stride =? 1) || negb (inplanes =? planes));
    cbn [rejects]; fold (rejects (Dropout dropout)); rewrite Hd; accepted.
Qed.

(** *** The groups of [sn_CNN]

    The loop of [sn_CNN._make_layer] appends one plain block per index. *)
Lemma sn_CNN_make_layer_loop (block : Z -> Z -> Z -> option module -> module)
    planes (idx : list Z) (layers : list module) self :
  self !! "inplanes" = Some (VInt planes) ->
  rejects (block planes planes 1 None) = None ->
  for_each idx
    (fun _ layers =>
       inplanes ← getattr_int "inplanes";
       next ← new (block inplanes planes 1 None);
       mret (layers ++ [next]))
    layers self =
  Ok (layers ++ replicate (length idx) (block planes planes 1 None), self).
Proof.
  intros Hin Hb. revert layers. induction idx as [|i idx IH]; intros layers.
  - cbn. by rewrite app_nil_r.
  - cbn [for_each length replicate].
    rewrite (bind_ok _ _ self (layers ++ [block planes planes 1 None]) self).
    + rewrite IH, <- app_assoc. done.
    + by rewrite (bind_getattr_int _ planes), bind_new_ok.
Qed.

Lemma sn_CNN_make_layer_loop_inv (block : Z -> Z -> Z -> option module -> module)
    planes (idx : list Z) (layers : list module) self r :
  self !! "inplanes" = Some (VInt planes) ->
  for_each idx
    (fun _ layers =>
       inplanes ← getattr_int "inplanes";
       next ← new (block inplanes planes 1 None);
       mret (layers ++ [next]))
    layers self = Ok r ->
  r = (layers ++ replicate (length idx) (block planes planes 1 None), self).
Proof.
  intros Hin. revert layers. induction idx as [|i idx IH]; intros layers Hr.
  - cbn in Hr. injection Hr as <-. by rewrite app_nil_r.
  - cbn [for_each length replicate] in Hr.
    rewrite bind_assoc, (bind_getattr_int _ planes), bind_assoc in Hr by done.
    apply bind_new_inv in Hr as [_ Hr]. rewrite bind_ret in Hr.
    rewrite (IH _ Hr), <- app_assoc. done.
Qed.

Lemma length_range lo hi : length (range lo hi) = Z.to_nat (hi - lo).
Proof. unfold range. apply length_seqZ. Qed.

(** With sizes the framework takes, [_make_layer] returns this group. *)
Lemma sn_CNN_make_layer_run
    (block : Z -> Z -> Z -> option module -> module)
    (planes blocks stride inplanes : Z) (self : gmap string value) :
  self !! "inplanes" = Some (VInt inplanes) ->
  1 <= inplanes -> 1 <= planes -> 1 <= stride ->
  (forall i s d, 1 <= i -> 1 <= s -> rejects (block i planes s d) = None) ->
  sn_CNN._make_layer block planes blocks stride self =
    Ok (Sequential
          (block inplanes planes stride
             (if negb (stride =? 1) || negb (inplanes =? planes)
              then Some (Sequential [Conv2d inplanes planes 1 stride 0 false;
                                     BatchNorm2d planes true])
              else None) ::
           replicate (Z.to_nat (blocks - 1)) (block planes planes 1 None)),
        <["inplanes" := VInt planes]> self).
Proof.
  intros Hin Hi Hp Hs Hblock. unfold sn_CNN._make_layer.
  rewrite (bind_getattr_int _ inplanes) by done.
  destruct (negb (stride =? 1) || negb (inplanes =? planes)).
  - rewrite bind_assoc, (bind_getattr_int _ inplanes) by done.
    rewrite bind_assoc, bind_new_ok, bind_ret by accepted.
    rewrite (bind_getattr_int _ inplanes), bind_new_ok, bind_setattr
      by (done || apply Hblock; lia).
    erewrite bind_ok;
      [|apply sn_CNN_make_layer_loop;
         [apply lookup_insert_eq | apply Hblock; lia]].
    by rewrite length_range.
  - rewrite bind_ret.
    rewrite (bind_getattr_int _ inplanes), bind_new_ok, bind_setattr
      by (done || apply Hblock; lia).
    erewrite bind_ok;
      [|apply sn_CNN_make_layer_loop;
         [apply lookup_insert_eq | apply Hblock; lia]].
    by rewrite length_range.
Qed.

(** Whatever the arguments, a call of [_make_layer] that returns has built
    this group. *)
Lemma sn_CNN_make_layer_inv
    (block : Z -> Z -> Z -> option module -> module)
    (planes blocks stride inplanes : Z) (self : gmap string value) r :
  self !! "inplanes" = Some (VInt inplanes) ->
  sn_CNN._make_layer block planes blocks stride self = Ok r ->
  r = (Sequential
         (block inplanes planes stride
            (if negb (stride =? 1) || negb (inplanes =? planes)
             then Some (Sequential [Conv2d inplanes planes 1 stride 0 false;
                                    BatchNorm2d planes true])
             else None) ::
          replicate (Z.to_nat (blocks - 1)) (block planes planes 1 None)),
       <["inplanes" := VInt planes]> self).
Proof.
  intros Hin. unfold sn_CNN._make_layer.
  rewrite (bind_getattr_int _ inplanes) by done.
  destruct (negb (stride =? 1) || negb (inplanes =? planes)); intros Hr.
  - rewrite bind_assoc, (bind_getattr_int _ inplanes), bind_assoc in Hr by done.
    apply bind_new_inv in Hr as [_ Hr]. rewrite bind_ret in Hr.
    rewrite (bind_getattr_int _ inplanes) in Hr by done.
    apply bind_new_inv in Hr as [_ Hr]. rewrite bind_setattr in Hr.
    apply bind_ok_inv in Hr as (layers & self' & Hloop & Hr).
    apply sn_CNN_make_layer_loop_inv in Hloop; [|apply lookup_insert_eq].
    injection Hloop as -> ->. injection Hr as <-. by rewrite length_range.
  - rewrite bind_ret in Hr.
    rewrite (bind_getattr_int _ inplanes) in Hr by done.
    apply bind_new_inv in Hr as [_ Hr]. rewrite bind_setattr in Hr.
    apply bind_ok_inv in Hr as (layers & self' & Hloop & Hr).
    apply sn_CNN_make_layer_loop_inv in Hloop; [|apply lookup_insert_eq].
    injection Hloop as -> ->. injection Hr as <-. by rewrite length_range.
Qed.

(** C10. [sn_CNN._make_layer] keeps the channels of a residual group
    matched.  Entered with [self.inplanes = inplanes], for positive channel
    counts and stride and a block class whose constructor takes them, it
    returns a
    group whose first block is [block(inplanes, planes, stride, downsample)],
    where [downsample] is the 1x1 convolution followed by a batch norm
    exactly when [stride != 1] or [inplanes != planes] and is [None]
    otherwise; every later block is [block(planes, planes)], with stride 1
    and no downsample; and it leaves [self.inplanes = planes]. *)
Theorem sn_CNN_make_layer_invariant
    (block : Z -> Z -> Z -> option module -> module)
    (planes blocks stride inplanes : Z) (self : gmap string value) :
  self !! "inplanes" = Some (VInt inplanes) ->
  1 <= inplanes -> 1 <= planes -> 1 <= stride ->
  (forall i s d, 1 <= i -> 1 <= s -> rejects (block i planes s d) = None) ->
  exists (downsample : option module) (self' : gmap string value),
    sn_CNN._make_layer block planes blocks stride self =
      Ok (Sequential
            (block inplanes planes stride downsample ::
             replicate (Z.to_nat (blocks - 1)) (block planes planes 1 None)),
          self') /\
    (stride <> 1 \/ inplanes <> planes ->
     downsample = Some (Sequential [Conv2d inplanes planes 1 stride 0 false;
                                    BatchNorm2d planes true])) /\
    (~ (stride <> 1 \/ inplanes <> planes) -> downsample = None) /\
    self' !! "inplanes" = Some (VInt planes).
Proof.
  intros Hin Hi Hp Hs Hblock. eexists _, _.
  split; [apply sn_CNN_make_layer_run; (done || lia)|].
  split_and!.
  - intros Hc.
    assert (negb (stride =? 1) || negb (inplanes =? planes) = true) as ->; [|done].
    rewrite orb_true_iff, !negb_true_iff, !Z.eqb_neq. done.
  - intros Hc.
    assert (negb (stride =? 1) || negb (inplanes =? planes) = false) as ->; [|done].
    rewrite orb_false_iff, !negb_false_iff, !Z.eqb_eq. lia.
  - apply lookup_insert_eq.
Qed.

Lemma sn_CNN_make_layer_invariant_witness :
  let self : gmap string value := {["inplanes" := VInt 16]} in
  self !! "inplanes" = Some (VInt 16) /\
  1 <= 16 /\ 1 <= 32 /\ 1 <= 1 /\
  (forall i s d,
     1 <= i -> 1 <= s -> rejects (BasicBlock.__init__ i 32 s d) = None) /\
  exists (downsample : option module) (self' : gmap string value),
    sn_CNN._make_layer BasicBlock.__init__ 32 4 1 self =
      Ok (Sequential
            (BasicBlock.__init__ 16 32 1 downsample ::
             replicate (Z.to_nat (4 - 1)) (BasicBlock.__init__ 32 32 1 None)),
          self') /\
    (1 <> 1 \/ 16 <> 32 ->
     downsample = Some (Sequential [Conv2d 16 32 1 1 0 false;
                                    BatchNorm2d 32 true])) /\
    (~ (1 <> 1 \/ 16 <> 32) -> downsample = None) /\
    self' !! "inplanes" = Some (VInt 32).
Proof.
  intros self.
  assert (Hblock : forall i s d,
            1 <= i -> 1 <= s -> rejects (BasicBlock.__init__ i 32 s d) = None)
    by (intros i s d Hi Hs; apply rejects_BasicBlock; lia).
  split; [reflexivity|]. do 3 (split; [lia|]). split; [exact Hblock|].
  apply (sn_CNN_make_layer_invariant BasicBlock.__init__ 32 4 1 16 self);
    [reflexivity | lia | lia | lia | exact Hblock].
Defined.

(** *** The groups of [WideResNet16_8]

    After its first round, the loop of [WideResNet16_8._make_layer] appends
    plain blocks of stride 1. *)
Lemma WRN_make_layer_loop planes dropout stride (idx : list Z)
    (layers : list module) (self : gmap string value) :
  Forall (fun i => i <> 0) idx ->
  self !! "inplanes" = Some (VInt planes) ->
  rejects (BasicBlockWRN16_8.__init__ planes planes dropout 1) = None ->
  for_each idx
    (fun i layers =>
       inplanes ← getattr_int "inplanes";
       block ← new (BasicBlockWRN16_8.__init__ inplanes planes dropout
                      (if i =? 0 then stride else 1));
       let layers := layers ++ [block] in
       setattr "inplanes" (VInt planes);;
       mret layers)
    layers self =
  Ok (layers ++
      replicate (length idx) (BasicBlockWRN16_8.__init__ planes planes dropout 1),
      self).
Proof.
  intros Hidx Hin Hb. revert layers.
  induction Hidx as [|i idx Hi _ IH]; intros layers.
  - cbn. by rewrite app_nil_r.
  - cbn [for_each length replicate].
    erewrite bind_ok.
    2:{ rewrite (bind_getattr_int _ planes) by done.
        apply Z.eqb_neq in Hi. rewrite Hi.
        rewrite bind_new_ok by done. cbn zeta.
        rewrite bind_setattr, insert_id by done. reflexivity. }
    rewrite IH, <- app_assoc. done.
Qed.

Lemma WRN_make_layer_loop_inv planes dropout stride (idx : list Z)
    (layers : list module) (self : gmap string value) r :
  Forall (fun i => i <> 0) idx ->
  self !! "inplanes" = Some (VInt planes) ->
  for_each idx
    (fun i layers =>
       inplanes ← getattr_int "inplanes";
       block ← new (BasicBlockWRN16_8.__init__ inplanes planes dropout
                      (if i =? 0 then stride else 1));
       let layers := layers ++ [block] in
       setattr "inplanes" (VInt planes);;
       mret layers)
    layers self = Ok r ->
  r = (layers ++
       replicate (length idx) (BasicBlockWRN16_8.__init__ planes planes dropout 1),
       self).
Proof.
  intros Hidx Hin. revert layers.
  induction Hidx as [|i idx Hi _ IH]; intros layers Hr.
  - cbn in Hr. injection Hr as <-. by rewrite app_nil_r.
  - cbn [for_each length replicate] in Hr.
    rewrite bind_assoc, (bind_getattr_int _ planes), bind_assoc in Hr by done.
    apply Z.eqb_neq in Hi. rewrite Hi in Hr.
    apply bind_new_inv in Hr as [_ Hr]. cbn zeta in Hr.
    rewrite bind_assoc, bind_setattr, bind_ret, insert_id in Hr by done.
    rewrite (IH _ Hr), <- app_assoc. done.
Qed.

Lemma WRN_make_layer planes blocks dropout stride inplanes
    (self : gmap string value) :
  self !! "inplanes" = Some (VInt inplanes) ->
  0 <= inplanes -> 0 <= planes ->
  (0 < blocks -> rejects (Dropout dropout) = None) ->
  WideResNet16_8._make_layer planes blocks dropout stride self =
    Ok (Sequential (wide_group inplanes planes dropout stride blocks),
        if 0 <? blocks then <["inplanes" := VInt planes]> self else self).
Proof.
  intros Hin Hi Hp Hd. unfold WideResNet16_8._make_layer, range, wide_group.
  destruct (Z.ltb_spec 0 blocks) as [Hpos|Hneg].
  - rewrite seqZ_cons by lia. cbn [for_each].
    erewrite bind_ok; [reflexivity|].
    erewrite bind_ok.
    2:{ rewrite (bind_getattr_int _ inplanes) by done.
        rewrite bind_new_ok by (apply rejects_BasicBlockWRN16_8; auto).
        cbn zeta. rewrite bind_setattr. reflexivity. }
    rewrite WRN_make_layer_loop.
    + rewrite length_seqZ. cbn [app].
      replace (Z.to_nat blocks) with (S (Z.to_nat (Z.pred (blocks - 0)))) by lia.
      done.
    + apply Forall_seqZ. lia.
    + apply lookup_insert_eq.
    + apply rejects_BasicBlockWRN16_8; auto.
  - rewrite seqZ_nil by lia. cbn.
    replace (Z.to_nat blocks) with O by lia. done.
Qed.

Lemma WRN_make_layer_inv planes blocks dropout stride inplanes
    (self : gmap string value) r :
  self !! "inplanes" = Some (VInt inplanes) ->
  WideResNet16_8._make_layer planes blocks dropout stride self = Ok r ->
  r = (Sequential (wide_group inplanes planes dropout stride blocks),
       if 0 <? blocks then <["inplanes" := VInt planes]> self else self).
Proof.
  intros Hin. unfold WideResNet16_8._make_layer, range, wide_group.
  destruct (Z.ltb_spec 0 blocks) as [Hpos|Hneg]; intros Hr.
  - rewrite seqZ_cons in Hr by lia. cbn [for_each] in Hr.
    apply bind_ok_inv in Hr as (layers & self' & Hloop & Hr).
    injection Hr as <-.
    rewrite bind_assoc, (bind_getattr_int _ inplanes), bind_assoc in Hloop
      by done.
    apply bind_new_inv in Hloop as [_ Hloop]. cbn zeta in Hloop.
    rewrite bind_assoc, bind_setattr, bind_ret in Hloop.
    apply WRN_make_layer_loop_inv in Hloop;
      [|apply Forall_seqZ; lia | apply lookup_insert_eq].
    injection Hloop as -> ->. rewrite length_seqZ. cbn [app].
    replace (Z.to_nat blocks) with (S (Z.to_nat (Z.pred (blocks - 0)))) by lia.
    done.
  - rewrite seqZ_nil in Hr by lia. cbn in Hr. injection Hr as <-.
    replace (Z.to_nat blocks) with O by lia. done.
Qed.

Lemma wide_group_nil inplanes planes dropout stride blocks :
  blocks <= 0 -> wide_group inplanes planes dropout stride blocks = [].
Proof. intros Hb. unfold wide_group. by replace (Z.to_nat blocks) with O by lia. Qed.

(** The blocks of a group of [WideResNet16_8]. *)
Lemma WRN_group_planes inplanes planes dropout stride blocks :
  Forall (fun b => block_planes b = Some planes)
    (wide_group inplanes planes dropout stride blocks) /\
  Z.of_nat (length (wide_group inplanes planes dropout stride blocks)) =
    Z.max 0 blocks.
Proof.
  assert (Hb : forall i s,
    block_planes (BasicBlockWRN16_8.__init__ i planes dropout s) = Some planes).
  { intros i s. unfold BasicBlockWRN16_8.__init__.
    by destruct (negb (s =? 1) || negb (i =? planes)). }
  unfold wide_group. destruct (Z.to_nat blocks) as [|k] eqn:Hk.
  - split; [constructor | cbn; lia].
  - split.
    + constructor; [apply Hb|]. apply Forall_replicate, Hb.
    + cbn [length]. rewrite length_replicate. lia.
Qed.

(** What [WideResNet16_8.__init__] leaves in the instance, when it
    returns. *)
Lemma WideResNet16_8_construct_inv depth width num_classes dropout self :
  construct (WideResNet16_8.__init__ depth width num_classes dropout) = Ok self ->
  WideResNet16_8_attrs self depth width num_classes dropout.
Proof.
  intros Hc. apply construct_ok_inv in Hc. revert Hc.
  unfold WideResNet16_8.__init__. cbn zeta.
  set (layer := (depth - 4) `div` 6).
  rewrite !bind_setattr. intros Hc.
  apply bind_ok_inv in Hc as (g1 & s1 & H1 & Hc).
  apply (WRN_make_layer_inv _ _ _ _ 16) in H1; [|done].
  injection H1 as -> ->. rewrite bind_setattr in Hc.
  apply bind_ok_inv in Hc as (g2 & s2 & H2 & Hc).
  destruct (Z.ltb_spec 0 layer) as [Hl|Hl].
  - apply (WRN_make_layer_inv _ _ _ _ (16 * width)) in H2; [|done].
    injection H2 as -> ->. rewrite bind_setattr in Hc.
    destruct (Z.ltb_spec 0 layer) as [_|]; [|lia].
    apply bind_ok_inv in Hc as (g3 & s3 & H3 & Hc).
    apply (WRN_make_layer_inv _ _ _ _ (32 * width)) in H3; [|done].
    injection H3 as -> ->. rewrite bind_setattr in Hc.
    destruct (Z.ltb_spec 0 layer) as [_|]; [|lia].
    apply bind_new_inv in Hc as [_ Hc]. rewrite !bind_setattr in Hc.
    apply bind_new_inv in Hc as [_ Hc]. cbn [setattr] in Hc.
    injection Hc as <-. unfold WideResNet16_8_attrs. fold layer.
    by split_and!.
  - apply (WRN_make_layer_inv _ _ _ _ 16) in H2; [|done].
    injection H2 as -> ->. rewrite bind_setattr in Hc.
    destruct (Z.ltb_spec 0 layer) as [|_]; [lia|].
    apply bind_ok_inv in Hc as (g3 & s3 & H3 & Hc).
    apply (WRN_make_layer_inv _ _ _ _ 16) in H3; [|done].
    injection H3 as -> ->. rewrite bind_setattr in Hc.
    destruct (Z.ltb_spec 0 layer) as [|_]; [lia|].
    apply bind_new_inv in Hc as [_ Hc]. rewrite !bind_setattr in Hc.
    apply bind_new_inv in Hc as [_ Hc]. cbn [setattr] in Hc.
    injection Hc as <-. unfold WideResNet16_8_attrs. fold layer.
    rewrite !(wide_group_nil _ _ _ _ layer) by done.
    by split_and!.
Qed.

(** [WideResNet16_8.__init__] returns when the framework takes the sizes
    and, should a block be built, the dropout probability. *)
Lemma WideResNet16_8_construct depth width num_classes dropout :
  0 <= width -> 0 <= num_classes ->
  (0 < (depth - 4) `div` 6 -> rejects (Dropout dropout) = None) ->
  exists self : gmap string value,
    construct (WideResNet16_8.__init__ depth width num_classes dropout) = Ok self /\
    WideResNet16_8_attrs self depth width num_classes dropout.
Proof.
  intros Hw Hn Hd.
  assert (Hok : exists self,
    construct (WideResNet16_8.__init__ depth width num_classes dropout) = Ok self).
  { unfold construct, WideResNet16_8.__init__. cbn zeta.
    set (layer := (depth - 4) `div` 6) in *.
    rewrite !bind_setattr.
    erewrite bind_ok; [|by apply (WRN_make_layer _ _ _ _ 16); (done || lia)].
    rewrite bind_setattr.
    destruct (Z.ltb_spec 0 layer) as [Hl|Hl].
    - erewrite bind_ok;
        [|by apply (WRN_make_layer _ _ _ _ (16 * width)); (done || lia)].
      rewrite bind_setattr.
      destruct (Z.ltb_spec 0 layer) as [_|]; [|lia].
      erewrite bind_ok;
        [|by apply (WRN_make_layer _ _ _ _ (32 * width)); (done || lia)].
      rewrite bind_setattr.
      destruct (Z.ltb_spec 0 layer) as [_|]; [|lia].
      rewrite bind_new_ok, !bind_setattr, bind_new_ok by accepted.
      cbn [setattr]. by eexists.
    - erewrite bind_ok; [|by apply (WRN_make_layer _ _ _ _ 16); (done || lia)].
      rewrite bind_setattr.
      destruct (Z.ltb_spec 0 layer) as [|_]; [lia|].
      erewrite bind_ok; [|by apply (WRN_make_layer _ _ _ _ 16); (done || lia)].
      rewrite bind_setattr.
      destruct (Z.ltb_spec 0 layer) as [|_]; [lia|].
      rewrite bind_new_ok, !bind_setattr, bind_new_ok by accepted.
      cbn [setattr]. by eexists. }
  destruct Hok as [self Hc]. exists self. split; [done|].
  by apply WideResNet16_8_construct_inv.
Qed.

(** C4, as amended.  [WideResNet16_8] is widened, not deepened, by [width].
    For every depth and every width the framework takes (a positive width,
    a positive number of classes, a dropout probability in [0, 1]), the
    blocks of the three groups produce [16*width], [32*width] and
    [64*width] channels and the final linear layer takes [64*width]
    features, while each group has [max(0, (depth - 4) // 6)] blocks,
    whatever the width. *)
Theorem WideResNet16_8_width (depth width num_classes : Z) (dropout : Q) :
  1 <= width -> 1 <= num_classes -> (0 <= dropout)%Q -> (dropout <= 1)%Q ->
  exists (self : gmap string value) (layer1 layer2 layer3 : list module),
    construct (WideResNet16_8.__init__ depth width num_classes dropout) = Ok self /\
    attr_module self "layer1" = Some (Sequential layer1) /\
    attr_module self "layer2" = Some (Sequential layer2) /\
    attr_module self "layer3" = Some (Sequential layer3) /\
    Forall (fun b => block_planes b = Some (16 * width)) layer1 /\
    Forall (fun b => block_planes b = Some (32 * width)) layer2 /\
    Forall (fun b => block_planes b = Some (64 * width)) layer3 /\
    attr_module self "fc" = Some (Linear (64 * width) num_classes) /\
    Z.of_nat (length layer1) = Z.max 0 ((depth - 4) `div` 6) /\
    Z.of_nat (length layer2) = Z.max 0 ((depth - 4) `div` 6) /\
    Z.of_nat (length layer3) = Z.max 0 ((depth - 4) `div` 6).
Proof.
  intros Hw Hn Hd0 Hd1.
  destruct (WideResNet16_8_construct depth width num_classes dropout)
    as (self & Hc & S0 & S1 & S2 & S3 & S4 & S5 & S6 & S7);
    [lia | lia | by intros _; apply rejects_Dropout |].
  set (layer := (depth - 4) `div` 6) in *.
  exists self, (wide_group 16 (16 * width) dropout 1 layer),
    (wide_group (16 * width) (32 * width) dropout 2 layer),
    (wide_group (32 * width) (64 * width) dropout 2 layer).
  unfold attr_module. rewrite S1, S2, S3, S7.
  pose proof (WRN_group_planes 16 (16 * width) dropout 1 layer) as [F1 L1].
  pose proof (WRN_group_planes (16 * width) (32 * width) dropout 2 layer) as [F2 L2].
  pose proof (WRN_group_planes (32 * width) (64 * width) dropout 2 layer) as [F3 L3].
  by split_and!.
Qed.

Lemma WideResNet16_8_width_witness :
  1 <= 8 /\ 1 <= 10 /\ (0 <= 3 # 10)%Q /\ (3 # 10 <= 1)%Q /\
  exists (self : gmap string value) (layer1 : list module),
    construct (WideResNet16_8.__init__ 16 8 10 (3 # 10)) = Ok self /\
    attr_module self "layer1" = Some (Sequential layer1) /\
    Forall (fun b => block_planes b = Some (16 * 8)) layer1 /\
    Z.of_nat (length layer1) = Z.max 0 ((16 - 4) `div` 6).
Proof.
  assert (H0 : (0 <= 3 # 10)%Q) by (by vm_compute).
  assert (H1 : (3 # 10 <= 1)%Q) by (by vm_compute).
  split; [lia|]. split; [lia|]. split; [exact H0|]. split; [exact H1|].
  destruct (WideResNet16_8_width 16 8 10 (3 # 10)
              ltac:(lia) ltac:(lia) H0 H1)
    as (self & l1 & l2 & l3 & Hc & A1 & _ & _ & F1 & _ & _ & _ & L1 & _).
  by exists self, l1.
Defined.

(** C4 as stated fails: with [depth = 0] the groups are empty, while
    [(depth - 4) // 6] is [-1]. *)
Lemma WideResNet16_8_blocks_counterexample :
  ~ (forall (depth width num_classes : Z) (dropout : Q)
            (self : gmap string value) (layer1 : list module),
       construct (WideResNet16_8.__init__ depth width num_classes dropout) = Ok self ->
       attr_module self "layer1" = Some (Sequential layer1) ->
       Z.of_nat (length layer1) = (depth - 4) `div` 6).
Proof.
  intros Hclaim.
  pose (c := construct (WideResNet16_8.__init__ 0 8 10 (3 # 10))).
  destruct c as [self|e] eqn:Hc; [|by vm_compute in Hc].
  specialize (Hclaim 0 8 10 (3 # 10) self [] Hc).
  assert (Hl : attr_module self "layer1" = Some (Sequential [])).
  { vm_compute in Hc. injection Hc as <-. reflexivity. }
  specialize (Hclaim Hl). vm_compute in Hclaim. discriminate.
Qed.

(** C1.  Constructing [sn_MLP] never succeeds, whatever the arguments.  When
    the size of the first linear layer is negative the framework refuses
    it with a [RuntimeError]; when it is positive [__init__] goes on to
    read [self.n_coefficients], which it has not assigned, and the attribute
    lookup raises [AttributeError]. *)
Theorem sn_MLP_init_raises (num_classes n_coefficients M_coefficient N_coefficient : Z) :
  exists e : exn,
    construct (sn_MLP.__init__ num_classes n_coefficients
                 M_coefficient N_coefficient) = Raise e /\
    (0 < 3 * M_coefficient * N_coefficient * n_coefficients ->
     e = AttributeError "n_coefficients") /\
    (3 * M_coefficient * N_coefficient * n_coefficients < 0 ->
     e = RuntimeError).
Proof.
  unfold construct, sn_MLP.__init__.
  rewrite bind_setattr, bind_new. cbn [rejects].
  destruct (Z.ltb_spec (3 * M_coefficient * N_coefficient * n_coefficients) 0)
    as [Hneg|Hpos].
  - exists RuntimeError. split_and!; [done | lia | done].
  - cbn [orb Z.ltb Z.compare].
    rewrite bind_getattr_int_missing.
    + exists (AttributeError "n_coefficients"). split_and!; [done | done | lia].
    + rewrite lookup_insert_ne by done. apply lookup_empty.
Qed.

(** ** Counting parameters *)

Lemma countLearnableParams_acc (parameters : list WideResNet16_8.parameter) (count : Z) :
  foldl (fun count t => count + WideResNet16_8.numel t) count parameters =
  count + numel_sum parameters.
Proof.
  revert count. induction parameters as [|t ps IH]; intros count.
  - cbn. lia.
  - cbn [foldl]. rewrite IH. unfold numel_sum. cbn. lia.
Qed.

Lemma numel_sum_split (parameters : list WideResNet16_8.parameter) :
  numel_sum parameters =
  numel_sum (learnable parameters) + numel_sum (frozen parameters).
Proof.
  unfold learnable, frozen.
  induction parameters as [|[n [|]] ps IH].
  - done.
  - rewrite filter_cons_True, filter_cons_False by done.
    unfold numel_sum in *. cbn. lia.
  - rewrite filter_cons_False, filter_cons_True by done.
    unfold numel_sum in *. cbn. lia.
Qed.

(** C9. [countLearnableParams] returns the sum of [numel] over everything
    [self.parameters()] yields: it never looks at [requires_grad], so the
    count is that of the trainable parameters plus that of the frozen ones,
    and freezing a parameter does not change it. *)
Theorem countLearnableParams_counts_all
    (parameters : list WideResNet16_8.parameter) :
  WideResNet16_8.countLearnableParams parameters = numel_sum parameters /\
  WideResNet16_8.countLearnableParams parameters =
    numel_sum (learnable parameters) + numel_sum (frozen parameters) /\
  WideResNet16_8.countLearnableParams
    ((fun t => {| WideResNet16_8.numel := WideResNet16_8.numel t;
                  WideResNet16_8.requires_grad := false |}) <$> parameters) =
    WideResNet16_8.countLearnableParams parameters.
Proof.
  unfold WideResNet16_8.countLearnableParams. cbn zeta.
  rewrite !countLearnableParams_acc, !Z.add_0_l.
  split_and!; [done | apply numel_sum_split |].
  unfold numel_sum. rewrite <- list_fmap_compose. done.
Qed.

(** ** Running a model *)

Section Runs.
Context `{B : Backend}.

Lemma fwd_bind_ok {A C} (c : fwd A) (k : A -> fwd C) σ a σ' :
  c σ = (Ok a, σ') -> (c ≫= k) σ = k a σ'.
Proof. intros Hc. unfold mbind, fwd_mbind, fwd_bind. by rewrite Hc. Qed.

Lemma self_module_ok self name m σ :
  self !! name = Some (VModule m) -> self_module self name σ = (Ok m, σ).
Proof.
  intros Hm. unfold self_module, self_attr, mbind, fwd_mbind, fwd_bind.
  by rewrite Hm.
Qed.

Lemma self_bool_ok self name b σ :
  self !! name = Some (VBool b) -> self_bool self name σ = (Ok b, σ).
Proof.
  intros Hb. unfold self_bool, self_attr, mbind, fwd_mbind, fwd_bind.
  by rewrite Hb.
Qed.

Lemma runs_ret y σ v : heap σ !! y = Some v -> runs (mret y) σ v [].
Proof. intros Hy. exists y, σ. by rewrite app_nil_r. Qed.

Lemma runs_call m x σ t v :
  alias_free m = true -> heap σ !! x = Some t -> denote m t = Ok v ->
  runs (call m x) σ v (topology m).
Proof.
  intros Hm Hx Hv. pose proof (call_sound m Hm x σ t Hx) as Hs.
  destruct (traces_call m x σ) as (done & Happ & _ & Hfull).
  destruct (call m x σ) as [[y|e] σ'] eqn:Hc; [|congruence].
  destruct Hs as (_ & _ & _ & _ & v' & Hv' & Hy).
  exists y, σ'. split; [done|]. split; [congruence|].
  cbn in Happ, Hfull. by rewrite Happ, (Hfull y eq_refl).
Qed.

Lemma runs_bind (c : fwd nat) (k : nat -> fwd nat) σ v L w L' :
  runs c σ v L ->
  (forall y σ1, heap σ1 !! y = Some v -> runs (k y) σ1 w L') ->
  runs (c ≫= k) σ w (L ++ L').
Proof.
  intros (y & σ1 & Hc & Hy & Happ) Hk.
  destruct (Hk y σ1 Hy) as (z & σ2 & Hk' & Hz & Happ').
  exists z, σ2. rewrite (fwd_bind_ok c k σ y σ1 Hc).
  split; [done|]. split; [done|]. by rewrite Happ', Happ, app_assoc.
Qed.

Lemma runs_attr_call self name m x (k : nat -> fwd nat) σ t v w L' :
  self !! name = Some (VModule m) ->
  alias_free m = true -> heap σ !! x = Some t -> denote m t = Ok v ->
  (forall y σ1, heap σ1 !! y = Some v -> runs (k y) σ1 w L') ->
  runs (m ← self_module self name; y ← call m x; k y) σ w (topology m ++ L').
Proof.
  intros Hname Hm Hx Hv Hk.
  destruct (runs_bind (call m x) k σ v (topology m) w L'
              (runs_call m x σ t v Hm Hx Hv) Hk) as (z & σ2 & Hrun & Hz & Happ).
  exists z, σ2. split; [|done].
  by rewrite (fwd_bind_ok _ _ σ m σ (self_module_ok self name m σ Hname)).
Qed.


Lemma runs_view_flat x (k : nat -> fwd nat) σ t t' w L :
  heap σ !! x = Some t -> tensor_flatten t = Ok t' ->
  (forall y σ1, heap σ1 !! y = Some t' -> runs (k y) σ1 w L) ->
  runs (view_flat x ≫= k) σ w L.
Proof.
  intros Hx Ht Hk.
  apply (runs_bind (view_flat x) k σ t' [] w L); [|done].
  exists (length (heap σ)), {| heap := heap σ ++ [t']; applied := applied σ |}.
  split_and!.
  - unfold view_flat, mbind, fwd_mbind, fwd_bind, load, lift, alloc.
    by rewrite Hx, Ht.
  - cbn [heap]. by rewrite list_lookup_middle.
  - cbn [applied]. by rewrite app_nil_r.
Qed.

Lemma runs_run_forward (f : nat -> fwd nat) t v L :
  runs (f 0%nat) {| heap := [t]; applied := [] |} v L ->
  run_forward f t = (Ok v, L).
Proof.
  intros (y & σ' & Hf & Hy & Happ). unfold run_forward. by rewrite Hf, Hy, Happ.
Qed.

End Runs.

(** ** Shapes of the layers *)

Lemma batch_norm2d_ok training c n c' h w :
  c' = c -> c <> 0 -> (training = true -> n * h * w <> 1) ->
  Shape.batch_norm2d training c [n; c'; h; w] = Ok [n; c'; h; w].
Proof.
  intros -> Hc Htr. unfold Shape.batch_norm2d. rewrite Z.eqb_refl.
  destruct (Z.eqb_spec c 0) as [|_]; [done|]. cbn [negb].
  destruct training; [|done].
  destruct (Z.eqb_spec (n * h * w) 1) as [E|_]; [|done]. by destruct Htr.
Qed.

Lemma linear_ok fin fout n d :
  d = fin -> Shape.linear fin fout [n; d] = Ok [n; fout].
Proof. intros ->. unfold Shape.linear. cbn. by rewrite Z.eqb_refl. Qed.

Lemma flatten_ok n rest :
  n <> 0 -> Shape.flatten (n :: rest) = Ok [n; Shape.product rest].
Proof.
  intros Hn. unfold Shape.flatten. by destruct (Z.eqb_spec n 0).
Qed.

(** ** The linear classifier *)

(** [sn_LinearLayer.__init__] raises what the constructor of [fc1] or of
    [bn0] raises, and otherwise leaves these attributes. *)
Lemma sn_LinearLayer_construct num_classes n M N :
  construct (sn_LinearLayer.__init__ num_classes n M N) =
  match rejects (Linear (3 * M * N * n) num_classes) ∪
        rejects (BatchNorm2d (n * 3) true) with
  | Some e => Raise e
  | None =>
      Ok (<["bn0" := VModule (BatchNorm2d (n * 3) true)]>
          (<["fc1" := VModule (Linear (3 * M * N * n) num_classes)]>
           (<["num_classes" := VInt num_classes]>
            (<["n_coefficients" := VInt n]> ∅))))
  end.
Proof.
  unfold construct, sn_LinearLayer.__init__.
  rewrite !bind_setattr, bind_new.
  destruct (rejects (Linear (3 * M * N * n) num_classes)) as [e|];
    [by rewrite rejects_first|].
  rewrite bind_setattr, (bind_getattr_int _ n), bind_new.
  - destruct (rejects (BatchNorm2d (n * 3) true)); reflexivity.
  - by rewrite !lookup_insert_ne, lookup_insert_eq by done.
Qed.

Lemma sn_LinearLayer_construct_ok num_classes n M N :
  0 <= num_classes -> 0 <= n -> 0 <= M * N ->
  construct (sn_LinearLayer.__init__ num_classes n M N) =
  Ok (<["bn0" := VModule (BatchNorm2d (n * 3) true)]>
      (<["fc1" := VModule (Linear (3 * M * N * n) num_classes)]>
       (<["num_classes" := VInt num_classes]>
        (<["n_coefficients" := VInt n]> ∅)))).
Proof.
  intros Hc Hn HMN. rewrite sn_LinearLayer_construct.
  assert (0 <= 3 * M * N * n) by nia.
  replace (rejects (Linear (3 * M * N * n) num_classes)) with (@None exn)
    by (symmetry; accepted).
  replace (rejects (BatchNorm2d (n * 3) true)) with (@None exn)
    by (symmetry; accepted).
  done.
Qed.

Lemma sn_LinearLayer_construct_inv num_classes n M N self :
  construct (sn_LinearLayer.__init__ num_classes n M N) = Ok self ->
  self = <["bn0" := VModule (BatchNorm2d (n * 3) true)]>
           (<["fc1" := VModule (Linear (3 * M * N * n) num_classes)]>
            (<["num_classes" := VInt num_classes]>
             (<["n_coefficients" := VInt n]> ∅))).
Proof.
  rewrite sn_LinearLayer_construct.
  destruct (_ ∪ _) as [e|]; [discriminate|]. by intros [= <-].
Qed.



(** ** The wrapped ResNet-50 *)

(** [sn_Resnet50.__init__] raises what the constructor of the new classifier
    raises, and otherwise leaves these attributes. *)
Lemma sn_Resnet50_construct num_classes :
  construct (sn_Resnet50.__init__ num_classes) =
  match rejects (Linear 2048 num_classes) with
  | Some e => Raise e
  | None =>
      Ok (<["num_classes" := VInt num_classes]>
          (<["model_ft" :=
               VModule (ResNet "resnet50" true (Linear 2048 num_classes))]>
           (<["model_ft" := VModule (models_resnet50 true)]> ∅)))
  end.
Proof.
  unfold construct, sn_Resnet50.__init__.
  rewrite bind_setattr.
  unfold getattr at 1. unfold mbind at 1, init_mbind, init_bind.
  rewrite lookup_insert_eq. cbn [models_resnet50 sn_Resnet50.fc_in_features].
  rewrite bind_ret, bind_new.
  destruct (rejects (Linear 2048 num_classes)) as [e|]; [done|].
  cbn [sn_Resnet50.set_fc]. by rewrite !bind_setattr.
Qed.

Lemma sn_Resnet50_construct_ok num_classes :
  0 <= num_classes ->
  construct (sn_Resnet50.__init__ num_classes) =
  Ok (<["num_classes" := VInt num_classes]>
      (<["model_ft" := VModule (ResNet "resnet50" true (Linear 2048 num_classes))]>
       (<["model_ft" := VModule (models_resnet50 true)]> ∅))).
Proof.
  intros Hn. rewrite sn_Resnet50_construct.
  replace (rejects (Linear 2048 num_classes)) with (@None exn)
    by (symmetry; accepted).
  done.
Qed.

Lemma sn_Resnet50_construct_inv num_classes self :
  construct (sn_Resnet50.__init__ num_classes) = Ok self ->
  self = <["num_classes" := VInt num_classes]>
           (<["model_ft" :=
                VModule (ResNet "resnet50" true (Linear 2048 num_classes))]>
            (<["model_ft" := VModule (models_resnet50 true)]> ∅)).
Proof.
  rewrite sn_Resnet50_construct.
  destruct (rejects _) as [e|]; [discriminate|]. by intros [= <-].
Qed.

Lemma resnet50_features_inv training arch pre s f :
  Shape.resnet50_features training arch pre s = Ok f ->
  exists batch c h w, s = [batch; c; h; w] /\ f = [batch; 2048].
Proof.
  unfold Shape.resnet50_features. intros Hf.
  destruct s as [|batch [|c [|h [|w [|? ?]]]]]; try discriminate.
  destruct (_ && _ && _); [|discriminate].
  destruct (_ && _); [discriminate|].
  injection Hf as <-. by exists batch, c, h, w.
Qed.

(** C6. [sn_Resnet50] wraps the ImageNet-pretrained ResNet-50.  For a
    positive [num_classes], construction keeps the loaded network but for
    its classifier, which becomes a linear layer from the backbone's 2048
    features to [num_classes]; [forward] returns what the wrapped model
    returns, in any backend; and on every input the backbone accepts, the
    output has shape [(batch, num_classes)]. *)
Theorem sn_Resnet50_wraps_backbone
    (training : bool) (num_classes : Z) (input features : list Z) :
  1 <= num_classes ->
  Shape.resnet50_features training "resnet50" true input = Ok features ->
  exists (self : gmap string value) (arch : string) (old_fc : module),
    construct (sn_Resnet50.__init__ num_classes) = Ok self /\
    models_resnet50 true = ResNet arch true old_fc /\
    old_fc = Linear 2048 1000 /\
    attr_module self "model_ft" =
      Some (ResNet arch true (Linear 2048 num_classes)) /\
    (forall (B : Backend) (x : nat) (σ : fstate) (t : Tensor),
       heap σ !! x = Some t ->
       returned (sn_Resnet50.forward self x σ) =
         (f ← resnet_features arch true t;
          layer_fn (Linear 2048 num_classes) f)) /\
    exists batch : Z,
      head input = Some batch /\
      run_forward (B := Shape.backend training) (sn_Resnet50.forward self) input =
        (Ok [batch; num_classes],
         [ResNet arch true (Linear 2048 num_classes); Linear 2048 num_classes]).
Proof.
  intros Hnc Hacc.
  destruct (resnet50_features_inv _ _ _ _ _ Hacc) as (batch & c & h & w & -> & ->).
  eexists _, "resnet50"%string, _.
  split; [apply sn_Resnet50_construct_ok; lia|].
  split; [reflexivity|]. split; [reflexivity|]. split; [reflexivity|].
  set (model_ft := ResNet "resnet50" true (Linear 2048 num_classes)).
  split.
  - intros B x σ t Hx.
    unfold sn_Resnet50.forward.
    rewrite (fwd_bind_ok _ _ σ model_ft σ); [|by apply self_module_ok].
    transitivity (denote model_ft t); [|reflexivity].
    rewrite <- (call_denote model_ft x σ t eq_refl Hx).
    unfold mbind at 1, fwd_mbind, fwd_bind, returned.
    by destruct (call model_ft x σ) as [[y|e] σ'].
  - exists batch. split; [done|].
    apply (runs_run_forward (B := Shape.backend training)).
    unfold sn_Resnet50.forward.
    eapply (runs_attr_call (B := Shape.backend training) _ "model_ft" model_ft
              _ _ _ _ _ _ []); [done | done | done | | ].
    + unfold model_ft. cbn [denote Shape.backend resnet_features].
      rewrite Hacc. reflexivity.
    + intros y σ1 Hy. by apply (runs_ret (B := Shape.backend training)).
Qed.

Lemma sn_Resnet50_wraps_backbone_witness :
  1 <= 10 /\
  Shape.resnet50_features true "resnet50" true [4; 3; 224; 224] = Ok [4; 2048] /\
  exists (self : gmap string value) (arch : string) (old_fc : module),
    construct (sn_Resnet50.__init__ 10) = Ok self /\
    models_resnet50 true = ResNet arch true old_fc /\
    old_fc = Linear 2048 1000 /\
    attr_module self "model_ft" = Some (ResNet arch true (Linear 2048 10)) /\
    (forall (B : Backend) (x : nat) (σ : fstate) (t : Tensor),
       heap σ !! x = Some t ->
       returned (sn_Resnet50.forward self x σ) =
         (f ← resnet_features arch true t; layer_fn (Linear 2048 10) f)) /\
    exists batch : Z,
      head [4; 3; 224; 224] = Some batch /\
      run_forward (B := Shape.backend true) (sn_Resnet50.forward self)
        [4; 3; 224; 224] =
        (Ok [batch; 10], [ResNet arch true (Linear 2048 10); Linear 2048 10]).
Proof.
  split; [lia|]. split; [reflexivity|].
  apply (sn_Resnet50_wraps_backbone true 10 [4; 3; 224; 224] [4; 2048]);
    [lia | reflexivity].
Defined.

(** ** Shapes through the residual groups *)

Lemma conv2d_same_ok cin cout k p n c h w :
  c = cin -> 2 * p + 1 = k -> 0 <= p ->
  1 <= h -> 1 <= w ->
  Shape.conv2d cin cout k 1 p [n; c; h; w] = Ok [n; cout; h; w].
Proof.
  intros -> <- Hp Hh Hw. unfold Shape.conv2d, Shape.conv_out.
  rewrite Z.eqb_refl, !Z.div_1_r.
  replace (h + 2 * p - (2 * p + 1) + 1) with h by lia.
  replace (w + 2 * p - (2 * p + 1) + 1) with w by lia.
  destruct (Z.leb_spec (2 * p + 1) (h + 2 * p)); [|lia].
  destruct (Z.leb_spec (2 * p + 1) (w + 2 * p)); [|lia].
  reflexivity.
Qed.

Lemma broadcasts_to_refl s : Shape.broadcasts_to s s = true.
Proof. induction s as [|d s IH]; [done|]. cbn. by rewrite Z.eqb_refl, IH. Qed.

Lemma add_same_ok s : Shape.add s s = Ok s.
Proof. unfold Shape.add. by rewrite broadcasts_to_refl. Qed.

Section GroupShapes.
Variable training : bool.
Variables batch h w : Z.
Hypothesis Hh : 1 <= h.
Hypothesis Hw : 1 <= w.
Hypothesis Htr : training = true -> batch * h * w <> 1.

Let shape : Backend := Shape.backend training.
#[local] Existing Instance shape.


Lemma denote_Sequential_cons `{B : Backend} m ms (t : Tensor) :
  denote (Sequential (m :: ms)) t = (denote m t ≫= denote (Sequential ms)).
Proof. reflexivity. Qed.



End GroupShapes.

Lemma residual_group_alias_free inplanes planes blocks :
  alias_free (Sequential (residual_group inplanes planes blocks)) = true.
Proof.
  unfold residual_group. cbn [alias_free forallb].
  apply andb_true_intro. split.
  - by destruct (negb (1 =? 1) || negb (inplanes =? planes)).
  - induction (Z.to_nat (blocks - 1)) as [|k IH]; [done|].
    cbn [replicate forallb]. by rewrite IH.
Qed.



Lemma make_residual_group planes blocks inplanes (self : gmap string value) :
  self !! "inplanes" = Some (VInt inplanes) ->
  1 <= inplanes -> 1 <= planes ->
  sn_CNN._make_layer BasicBlock.__init__ planes blocks 1 self =
    Ok (Sequential (residual_group inplanes planes blocks),
        <["inplanes" := VInt planes]> self).
Proof.
  intros Hin Hi Hp. unfold residual_group.
  apply sn_CNN_make_layer_run; [done | done | done | lia |].
  intros i s d Hi' Hs. apply rejects_BasicBlock; lia.
Qed.

Lemma make_residual_group_inv planes blocks inplanes
    (self : gmap string value) r :
  self !! "inplanes" = Some (VInt inplanes) ->
  sn_CNN._make_layer BasicBlock.__init__ planes blocks 1 self = Ok r ->
  r = (Sequential (residual_group inplanes planes blocks),
       <["inplanes" := VInt planes]> self).
Proof. intros Hin Hr. by apply (sn_CNN_make_layer_inv _ _ _ _ inplanes) in Hr. Qed.

(** ** The scattering CNN *)

Lemma init_bind_if {A C} (b : bool) (c1 c2 : init A) (k : A -> init C) self :
  ((if b then c1 else c2) ≫= k) self =
  if b then (c1 ≫= k) self else (c2 ≫= k) self.
Proof. by destruct b. Qed.

(** One statement of a constructor whose arguments the framework takes. *)
Ltac init_step :=
  first
    [ rewrite bind_setattr
    | rewrite bind_ret
    | erewrite bind_getattr_int by done
    | rewrite bind_new_ok by accepted
    | erewrite bind_ok by (apply make_residual_group; (done || lia))
    | rewrite bind_assoc ].

(** One statement of a constructor that returned. *)
Ltac init_inv H :=
  first
    [ rewrite bind_setattr in H
    | rewrite bind_ret in H
    | erewrite bind_getattr_int in H by done
    | apply bind_new_inv in H as [_ H]
    | rewrite bind_assoc in H
    | let g := fresh "g" in
      let s := fresh "s" in
      let Hm := fresh "Hm" in
      apply bind_ok_inv in H as (g & s & Hm & H);
      eapply make_residual_group_inv in Hm; [|done];
      injection Hm as -> -> ].

(** What [sn_CNN.__init__] leaves in the instance, when it returns. *)
Lemma sn_CNN_construct_inv in_channels k n num_classes standard self :
  construct (sn_CNN.__init__ in_channels k n num_classes standard) = Ok self ->
  sn_CNN_attrs self in_channels k n num_classes standard.
Proof.
  intros Hc. apply construct_ok_inv in Hc. revert Hc.
  unfold sn_CNN.__init__. cbn zeta. intros Hc.
  apply bind_new_inv in Hc as [_ Hc].
  rewrite !bind_setattr, init_bind_if in Hc.
  destruct standard; repeat init_inv Hc; cbn [setattr] in Hc;
    injection Hc as <-; unfold sn_CNN_attrs; by split_and!.
Qed.

(** [sn_CNN.__init__] returns when the framework takes every size. *)
Lemma sn_CNN_construct in_channels k n num_classes standard :
  0 <= in_channels -> 1 <= k -> 0 <= num_classes ->
  exists self : gmap string value,
    construct (sn_CNN.__init__ in_channels k n num_classes standard) = Ok self /\
    sn_CNN_attrs self in_channels k n num_classes standard.
Proof.
  intros Hi Hk Hn.
  assert (Hok : exists self,
    construct (sn_CNN.__init__ in_channels k n num_classes standard) = Ok self).
  { unfold construct, sn_CNN.__init__. cbn zeta.
    rewrite bind_new_ok by accepted.
    rewrite !bind_setattr, init_bind_if.
    destruct standard; repeat init_step; cbn [setattr]; by eexists. }
  destruct Hok as [self Hc]. exists self. split; [done|].
  by apply sn_CNN_construct_inv.
Qed.

Section CNNForward.
Context `{B : Backend}.



End CNNForward.

Lemma adaptive_avg_pool2d_ok o n c h w :
  0 < c -> 0 < h -> 0 < w ->
  Shape.adaptive_avg_pool2d o [n; c; h; w] = Ok [n; c; o; o].
Proof.
  intros Hc Hh Hw. unfold Shape.adaptive_avg_pool2d.
  destruct (Z.ltb_spec 0 c); [|lia]. destruct (Z.ltb_spec 0 h); [|lia].
  by destruct (Z.ltb_spec 0 w); [|lia].
Qed.






(** ** The multilayer perceptron *)

Lemma fwd_bind_raise `{B : Backend} {A C} (c : fwd A) (k : A -> fwd C) σ e σ' :
  c σ = (Raise e, σ') -> (c ≫= k) σ = (Raise e, σ').
Proof. intros Hc. unfold mbind, fwd_mbind, fwd_bind. by rewrite Hc. Qed.

(** X1. Even with its layers in place, [sn_MLP.forward] could not return: it
    flattens its input to two dimensions and hands it to a [BatchNorm2d],
    which wants four. *)
Lemma sn_MLP_forward_raises (training : bool) (self : gmap string value)
    (c : Z) (a : bool) (rest : list module) (s : list Z) :
  self !! "layers" = Some (VModule (Sequential (BatchNorm2d c a :: rest))) ->
  exists e : exn,
    (run_forward (B := Shape.backend training) (sn_MLP.forward self) s).1 = Raise e.
Proof.
  intros Hl. unfold run_forward, sn_MLP.forward.
  set (σ0 := @Build_fstate (Shape.backend training) [s] []).
  destruct (view_flat 0%nat σ0) as [[y|e] σ1] eqn:Hv.
  - rewrite (fwd_bind_ok _ _ _ _ _ Hv).
    rewrite (fwd_bind_ok _ _ _ _ _ (self_module_ok self "layers" _ σ1 Hl)).
    assert (Hy : exists n p : Z,
              heap σ1 !! y = Some ([n; p] : @Tensor (Shape.backend training))).
    { unfold view_flat, mbind, fwd_mbind, fwd_bind, load, lift, alloc in Hv.
      cbn [heap σ0 lookup list_lookup tensor_flatten Shape.backend] in Hv.
      unfold Shape.flatten in Hv. destruct s as [|n s']; [done|].
      destruct (n =? 0); [done|]. injection Hv as <- <-.
      by exists n, (Shape.product s'). }
    destruct Hy as (n & p & Hy).
    rewrite call_Sequential_cons.
    assert (Hbn : call (BatchNorm2d c a) y σ1 =
                  (Raise ValueError,
                   {| heap := heap σ1; applied := applied σ1 ++ [BatchNorm2d c a] |})).
    { cbn [call]. unfold call_layer, mbind, fwd_mbind, fwd_bind, record_call,
        load, lift. cbn [heap]. by rewrite Hy. }
    rewrite (fwd_bind_raise _ _ _ _ _ Hbn). by exists ValueError.
  - exists e. by rewrite (fwd_bind_raise _ _ _ _ _ Hv).
Qed.

Lemma sn_MLP_forward_raises_witness :
  let self : gmap string value :=
    {["layers" := VModule (Sequential [BatchNorm2d 243 true; Linear 15552 512])]} in
  self !! "layers" =
    Some (VModule (Sequential [BatchNorm2d 243 true; Linear 15552 512])) /\
  exists e : exn,
    (run_forward (B := Shape.backend false) (sn_MLP.forward self)
       [4; 243; 8; 8]).1 = Raise e.
Proof.
  intros self. split; [reflexivity|].
  exact (sn_MLP_forward_raises false self 243 true [Linear 15552 512]
           [4; 243; 8; 8] eq_refl).
Defined.

(** ** Strided convolutions *)

Lemma strided_1 size : strided 1 size = size.
Proof. unfold strided. rewrite Z.div_1_r. lia. Qed.

Lemma strided_bounds s size :
  1 <= s -> 1 <= size -> 1 <= strided s size <= size.
Proof.
  intros Hs Hn. unfold strided.
  assert (0 <= (size - 1) `div` s) by (apply Z.div_pos; lia).
  assert ((size - 1) `div` s <= size - 1) by (apply Z.div_le_upper_bound; nia).
  lia.
Qed.

Lemma strided_ceil s size :
  1 <= s -> (strided s size - 1) * s < size <= strided s size * s.
Proof.
  intros Hs. unfold strided.
  pose proof (Z.div_mod (size - 1) s ltac:(lia)) as Hdm.
  pose proof (Z.mod_pos_bound (size - 1) s ltac:(lia)) as Hm.
  nia.
Qed.

Lemma conv2d_strided_ok cin cout k p s n c h w :
  c = cin -> 2 * p + 1 = k -> 0 <= p -> 1 <= s -> 1 <= h -> 1 <= w ->
  Shape.conv2d cin cout k s p [n; c; h; w] =
  Ok [n; cout; strided s h; strided s w].
Proof.
  intros -> <- Hp Hs Hh Hw. unfold Shape.conv2d, Shape.conv_out, strided.
  rewrite Z.eqb_refl.
  replace (h + 2 * p - (2 * p + 1)) with (h - 1) by lia.
  replace (w + 2 * p - (2 * p + 1)) with (w - 1) by lia.
  destruct (Z.leb_spec (2 * p + 1) (h + 2 * p)); [|lia].
  destruct (Z.leb_spec (2 * p + 1) (w + 2 * p)); [|lia].
  by destruct (Z.ltb_spec 0 s); [|lia].
Qed.

(** X2. [conv3x3] and [conv1x1] with the same stride leave the same spatial
    size, the input size divided by the stride and rounded up, so the main
    branch of a block and its 1x1 shortcut can always be added. *)
Theorem conv3x3_conv1x1_same_shape
    (training : bool) (in_planes out_planes stride batch h w : Z) :
  1 <= in_planes -> 1 <= out_planes -> 1 <= stride -> 1 <= h -> 1 <= w ->
  Shape.layer training (conv3x3 in_planes out_planes stride) [batch; in_planes; h; w] =
    Ok [batch; out_planes; strided stride h; strided stride w] /\
  Shape.layer training (conv1x1 in_planes out_planes stride) [batch; in_planes; h; w] =
    Ok [batch; out_planes; strided stride h; strided stride w] /\
  (strided stride h - 1) * stride < h <= strided stride h * stride /\
  (strided stride w - 1) * stride < w <= strided stride w * stride.
Proof.
  intros Hin Hout Hs Hh Hw. unfold conv3x3, conv1x1. cbn [Shape.layer].
  rewrite !conv2d_strided_ok by (done || lia).
  split_and!; try done; by apply strided_ceil.
Qed.

Lemma conv3x3_conv1x1_same_shape_witness :
  1 <= 16 /\ 1 <= 128 /\ 1 <= 2 /\ 1 <= 33 /\ 1 <= 32 /\
  Shape.layer true (conv3x3 16 128 2) [4; 16; 33; 32] = Ok [4; 128; 17; 16] /\
  Shape.layer true (conv1x1 16 128 2) [4; 16; 33; 32] = Ok [4; 128; 17; 16].
Proof.
  split_and!; try lia;
    destruct (conv3x3_conv1x1_same_shape true 16 128 2 4 33 32) as (H3 & H1 & _);
    try lia; [exact H3 | exact H1].
Defined.

(** ** Shapes through strided blocks *)

Lemma batch_one_value batch h w h' w' :
  1 <= h' <= h -> 1 <= w' <= w -> 0 < batch ->
  batch * h' * w' <> 1 -> batch * h * w <> 1.
Proof.
  intros Hh Hw Hb Hne Heq.
  apply Z.eq_mul_1_nonneg in Heq as [Hbh ->]; [|nia].
  apply Z.eq_mul_1_nonneg in Hbh as [-> ->]; [|lia].
  apply Hne. replace h' with 1 by lia. replace w' with 1 by lia. done.
Qed.

Section StridedShapes.
Variable training : bool.
Variable batch : Z.
Hypothesis Hbatch : 0 < batch.

Let shape : Backend := Shape.backend training.
#[local] Existing Instance shape.

Lemma BasicBlockWRN16_8_shape inplanes planes dropout stride h w :
  1 <= inplanes -> 1 <= planes -> 1 <= stride -> 1 <= h -> 1 <= w ->
  (training = true -> batch * strided stride h * strided stride w <> 1) ->
  denote (BasicBlockWRN16_8.__init__ inplanes planes dropout stride)
    [batch; inplanes; h; w] =
  Ok [batch; planes; strided stride h; strided stride w].
Proof.
  intros Hip Hpl Hs Hh Hw Htr.
  pose proof (strided_bounds stride h Hs Hh) as Bh.
  pose proof (strided_bounds stride w Hs Hw) as Bw.
  assert (Htr0 : training = true -> batch * h * w <> 1).
  { intros Ht. by apply (batch_one_value batch h w _ _ Bh Bw Hbatch), Htr. }
  unfold BasicBlockWRN16_8.__init__, conv3x3, conv1x1.
  destruct (negb (stride =? 1) || negb (inplanes =? planes)) eqn:Huse.
  - cbn [denote layer_fn shape Shape.backend Shape.layer].
    rewrite batch_norm2d_ok by (done || lia). cbn [mbind result_mbind].
    rewrite !conv2d_strided_ok by (done || lia). cbn [mbind result_mbind].
    rewrite batch_norm2d_ok by (done || lia). cbn [mbind result_mbind].
    rewrite conv2d_strided_ok by (done || lia). cbn [mbind result_mbind].
    rewrite !strided_1. by rewrite add_same_ok.
  - apply orb_false_elim in Huse as [H1 H2].
    apply negb_false_iff, Z.eqb_eq in H1, H2. subst stride planes.
    rewrite !strided_1 in *.
    cbn [denote layer_fn shape Shape.backend Shape.layer].
    rewrite batch_norm2d_ok by (done || lia). cbn [mbind result_mbind].
    rewrite !conv2d_strided_ok by (done || lia). cbn [mbind result_mbind].
    rewrite !strided_1.
    rewrite batch_norm2d_ok by (done || lia). cbn [mbind result_mbind].
    rewrite conv2d_strided_ok by (done || lia). cbn [mbind result_mbind].
    rewrite !strided_1. by rewrite add_same_ok.
Qed.

Lemma wide_plain_blocks_shape planes dropout (k : nat) h w :
  1 <= planes ->
  1 <= h -> 1 <= w -> (training = true -> batch * h * w <> 1) ->
  denote (Sequential (replicate k (BasicBlockWRN16_8.__init__ planes planes dropout 1)))
    [batch; planes; h; w] = Ok [batch; planes; h; w].
Proof.
  intros Hpl Hh Hw Htr. induction k as [|k IH]; [done|].
  cbn [replicate]. rewrite denote_Sequential_cons.
  rewrite BasicBlockWRN16_8_shape by (rewrite ?strided_1; done || lia).
  rewrite !strided_1. exact IH.
Qed.

Lemma wide_group_shape inplanes planes dropout stride blocks h w :
  1 <= inplanes -> 1 <= planes ->
  1 <= blocks -> 1 <= stride -> 1 <= h -> 1 <= w ->
  (training = true -> batch * strided stride h * strided stride w <> 1) ->
  denote (Sequential (wide_group inplanes planes dropout stride blocks))
    [batch; inplanes; h; w] =
  Ok [batch; planes; strided stride h; strided stride w].
Proof.
  intros Hip Hpl Hb Hs Hh Hw Htr. unfold wide_group.
  destruct (Z.to_nat blocks) as [|k] eqn:Hk; [lia|].
  rewrite denote_Sequential_cons, BasicBlockWRN16_8_shape by done.
  pose proof (strided_bounds stride h Hs Hh).
  pose proof (strided_bounds stride w Hs Hw).
  apply wide_plain_blocks_shape; (done || lia).
Qed.


End StridedShapes.

(** ** Values of whole forward passes *)

Section Values.
Context `{B : Backend}.

(** A call followed by the rest of a forward pass: it raises what the
    reference semantics raises, and otherwise hands the rest a reference to
    the value the reference semantics gives. *)
Lemma returned_call_bind (m : module) (x : nat) (σ : fstate) (t : Tensor)
    (k : nat -> fwd nat) :
  alias_free m = true -> heap σ !! x = Some t ->
  match denote m t with
  | Ok v => exists y σ', (call m x ≫= k) σ = k y σ' /\ heap σ' !! y = Some v
  | Raise e => returned ((call m x ≫= k) σ) = Raise e
  end.
Proof.
  intros Hm Hx. pose proof (call_sound m Hm x σ t Hx) as Hs.
  destruct (call m x σ) as [[y|e] σ'] eqn:Hc.
  - destruct Hs as (_ & _ & _ & _ & v & -> & Hy).
    exists y, σ'. by rewrite (fwd_bind_ok _ _ _ _ _ Hc).
  - rewrite Hs. by rewrite (fwd_bind_raise _ _ _ _ _ Hc).
Qed.

Lemma returned_view_flat_bind (x : nat) (σ : fstate) (t : Tensor)
    (k : nat -> fwd nat) :
  heap σ !! x = Some t ->
  match tensor_flatten t with
  | Ok v => exists y σ', (view_flat x ≫= k) σ = k y σ' /\ heap σ' !! y = Some v
  | Raise e => returned ((view_flat x ≫= k) σ) = Raise e
  end.
Proof.
  intros Hx. destruct (tensor_flatten t) as [v|e] eqn:Hf.
  - exists (length (heap σ)), {| heap := heap σ ++ [v]; applied := applied σ |}.
    split.
    + apply fwd_bind_ok.
      unfold view_flat, mbind, fwd_mbind, fwd_bind, load, lift, alloc.
      by rewrite Hx, Hf.
    + cbn [heap]. by rewrite list_lookup_middle.
  - erewrite fwd_bind_raise; [done|].
    unfold view_flat, mbind, fwd_mbind, fwd_bind, load, lift.
    by rewrite Hx, Hf.
Qed.

Lemma returned_call (m : module) (x : nat) (σ : fstate) (t : Tensor) :
  alias_free m = true -> heap σ !! x = Some t ->
  returned ((y ← call m x; mret y) σ) = denote m t.
Proof.
  intros Hm Hx. pose proof (returned_call_bind m x σ t (fun y => mret y) Hm Hx) as Hs.
  destruct (denote m t) as [v|e]; [|done].
  destruct Hs as (y & σ' & -> & Hy). cbn. by rewrite Hy.
Qed.

(** [sn_LinearLayer.forward] computes [fc1(flatten(bn0(x)))]. *)
Lemma sn_LinearLayer_forward_value (self : gmap string value)
    (bn0 fc1 : module) (x : nat) (σ : fstate) (t : Tensor) :
  self !! "bn0" = Some (VModule bn0) ->
  self !! "fc1" = Some (VModule fc1) ->
  alias_free bn0 = true -> alias_free fc1 = true ->
  heap σ !! x = Some t ->
  returned (sn_LinearLayer.forward self x σ) =
    (t1 ← denote bn0 t; t2 ← tensor_flatten t1; denote fc1 t2).
Proof.
  intros Hbn Hfc A0 A1 Hx. unfold sn_LinearLayer.forward.
  rewrite (fwd_bind_ok _ _ _ _ _ (self_module_ok self "bn0" bn0 σ Hbn)).
  pose proof (returned_call_bind bn0 x σ t
    (fun x => x ← view_flat x; fc1 ← self_module self "fc1";
              x ← call fc1 x; mret x) A0 Hx) as H0.
  destruct (denote bn0 t) as [t1|e]; [|done].
  destruct H0 as (y1 & σ1 & -> & Hy1). cbn [mbind result_mbind].
  pose proof (returned_view_flat_bind y1 σ1 t1
    (fun x => fc1 ← self_module self "fc1"; x ← call fc1 x; mret x) Hy1) as H1.
  destruct (tensor_flatten t1) as [t2|e]; [|done].
  destruct H1 as (y2 & σ2 & -> & Hy2). cbn [mbind result_mbind].
  rewrite (fwd_bind_ok _ _ _ _ _ (self_module_ok self "fc1" fc1 σ2 Hfc)).
  by apply returned_call.
Qed.

End Values.

Lemma run_forward_returned `{B : Backend} (f : nat -> fwd nat) (t : Tensor) :
  (run_forward f t).1 = returned (f 0%nat {| heap := [t]; applied := [] |}).
Proof.
  unfold run_forward, returned.
  by destruct (f 0%nat _) as [[y|e] σ].
Qed.

(** [sn_LinearLayer.forward] in the shape backend, case by case. *)
Lemma sn_LinearLayer_forward_returns
    (training : bool) (num_classes n_coefficients M N : Z)
    (input output : list Z) :
  1 <= n_coefficients ->
  (run_forward (B := Shape.backend training)
     (sn_LinearLayer.forward
        (<["bn0" := VModule (BatchNorm2d (n_coefficients * 3) true)]>
         (<["fc1" := VModule (Linear (3 * M * N * n_coefficients) num_classes)]>
          (<["num_classes" := VInt num_classes]>
           (<["n_coefficients" := VInt n_coefficients]> ∅))))) input).1
    = Ok output <->
  exists batch h w : Z,
    input = [batch; n_coefficients * 3; h; w] /\
    batch <> 0 /\
    (training = true -> batch * h * w <> 1) /\
    n_coefficients * 3 * h * w = 3 * M * N * n_coefficients /\
    output = [batch; num_classes].
Proof.
  intros Hn. rewrite run_forward_returned.
  rewrite (sn_LinearLayer_forward_value (B := Shape.backend training) _
             (BatchNorm2d (n_coefficients * 3) true)
             (Linear (3 * M * N * n_coefficients) num_classes) 0%nat _ input);
    [|done..].
  cbn [denote layer_fn tensor_flatten Shape.backend Shape.layer].
  split.
  - unfold Shape.batch_norm2d.
    destruct input as [|batch [|c [|h [|w [|? ?]]]]]; try discriminate.
    destruct (training && (batch * h * w =? 1)) eqn:Htr; [discriminate|].
    destruct (Z.eqb_spec c (n_coefficients * 3)) as [->|]; [|discriminate].
    cbn [negb]. destruct (Z.eqb_spec (n_coefficients * 3) 0) as [|_]; [lia|].
    cbn [mbind result_mbind]. unfold Shape.flatten.
    destruct (Z.eqb_spec batch 0) as [|Hb]; [discriminate|].
    cbn [mbind result_mbind]. unfold Shape.linear, Shape.product.
    cbn [reverse rev_append foldr].
    destruct (Z.eqb_spec (n_coefficients * 3 * (h * (w * 1)))
                (3 * M * N * n_coefficients)) as [Hd|]; [|discriminate].
    intros [= <-]. exists batch, h, w. split_and!; try done; [|lia].
    intros ->. cbn in Htr. by apply Z.eqb_neq in Htr.
  - intros (batch & h & w & -> & Hb & Htr & Hd & ->).
    rewrite batch_norm2d_ok by (done || lia). cbn [mbind result_mbind].
    rewrite flatten_ok by done. cbn [mbind result_mbind].
    apply linear_ok. unfold Shape.product. cbn [foldr]. lia.
Qed.

(** X3. Which inputs [sn_LinearLayer.forward] takes.  For a model built with
    positive arguments and an input whose dimensions are all positive, the
    call returns exactly when the input is 4-d with [3*n_coefficients]
    channels and [h*w = M*N] values per channel (and, while training, more
    than one value per channel over the batch): any spatial layout of
    [M*N] values is accepted, not only [M x N].  The result then has shape
    [(batch, num_classes)]. *)
Theorem sn_LinearLayer_forward_accepts
    (training : bool) (num_classes n_coefficients M N : Z)
    (self : gmap string value) (input output : list Z) :
  1 <= num_classes -> 1 <= n_coefficients -> 1 <= M -> 1 <= N ->
  Forall (fun d => 1 <= d) input ->
  construct (sn_LinearLayer.__init__ num_classes n_coefficients M N) = Ok self ->
  (run_forward (B := Shape.backend training) (sn_LinearLayer.forward self) input).1
    = Ok output <->
  exists batch h w : Z,
    input = [batch; 3 * n_coefficients; h; w] /\
    (training = true -> batch * h * w <> 1) /\
    h * w = M * N /\
    output = [batch; num_classes].
Proof.
  intros Hnc Hn HM HN Hin Hc.
  apply sn_LinearLayer_construct_inv in Hc as ->.
  rewrite sn_LinearLayer_forward_returns by done. split.
  - intros (batch & h & w & -> & Hb & Htr & Hd & ->).
    exists batch, h, w. split_and!; [f_equal; f_equal; lia | done | nia | done].
  - intros (batch & h & w & -> & Htr & Hd & ->).
    exists batch, h, w.
    apply Forall_cons in Hin as [Hb _].
    split_and!; [f_equal; f_equal; lia | lia | done | nia | done].
Qed.

Lemma sn_LinearLayer_forward_accepts_witness :
  1 <= 10 /\ 1 <= 81 /\ 1 <= 8 /\ 1 <= 8 /\
  Forall (fun d => 1 <= d) [4; 243; 64; 1] /\
  exists self : gmap string value,
    construct (sn_LinearLayer.__init__ 10 81 8 8) = Ok self /\
    (run_forward (B := Shape.backend true) (sn_LinearLayer.forward self)
       [4; 243; 64; 1]).1 = Ok [4; 10].
Proof.
  assert (Hin : Forall (fun d => 1 <= d) [4; 243; 64; 1])
    by (repeat constructor; lia).
  do 4 (split; [lia|]). split; [exact Hin|].
  eexists. split; [apply sn_LinearLayer_construct_ok; lia|].
  apply (sn_LinearLayer_forward_accepts true 10 81 8 8 _ [4; 243; 64; 1] [4; 10]
           ltac:(lia) ltac:(lia) ltac:(lia) ltac:(lia) Hin
           (sn_LinearLayer_construct_ok 10 81 8 8
              ltac:(lia) ltac:(lia) ltac:(lia))).
  exists 4, 64, 1. split_and!; (done || lia).
Defined.

(** ** The wide residual network *)

Lemma wide_group_alias_free inplanes planes dropout stride blocks :
  alias_free (Sequential (wide_group inplanes planes dropout stride blocks)) = true.
Proof.
  unfold wide_group. destruct (Z.to_nat blocks) as [|k]; [done|].
  cbn [alias_free forallb]. rewrite BasicBlockWRN16_8_alias_free. cbn [andb].
  induction k as [|k IH]; [done|].
  cbn [replicate forallb]. by rewrite BasicBlockWRN16_8_alias_free.
Qed.

Section WideForward.
Context `{B : Backend}.

(** [WideResNet16_8.forward], one module after the other. *)
Lemma WideResNet16_8_forward_runs (self : gmap string value)
    (conv layer1 layer2 layer3 bn relu avgpool fc : module)
    (x : nat) (σ : fstate) (t t1 t2 t3 t4 t5 t6 t7 t8 t9 : Tensor) :
  self !! "conv" = Some (VModule conv) ->
  self !! "layer1" = Some (VModule layer1) ->
  self !! "layer2" = Some (VModule layer2) ->
  self !! "layer3" = Some (VModule layer3) ->
  self !! "bn" = Some (VModule bn) ->
  self !! "relu" = Some (VModule relu) ->
  self !! "avgpool" = Some (VModule avgpool) ->
  self !! "fc" = Some (VModule fc) ->
  alias_free conv = true -> alias_free layer1 = true ->
  alias_free layer2 = true -> alias_free layer3 = true ->
  alias_free bn = true -> alias_free relu = true ->
  alias_free avgpool = true -> alias_free fc = true ->
  heap σ !! x = Some t ->
  denote conv t = Ok t1 ->
  denote layer1 t1 = Ok t2 ->
  denote layer2 t2 = Ok t3 ->
  denote layer3 t3 = Ok t4 ->
  denote bn t4 = Ok t5 ->
  denote relu t5 = Ok t6 ->
  denote avgpool t6 = Ok t7 ->
  tensor_flatten t7 = Ok t8 ->
  denote fc t8 = Ok t9 ->
  runs (WideResNet16_8.forward self x) σ t9
    (topology conv ++ topology layer1 ++ topology layer2 ++ topology layer3 ++
     topology bn ++ topology relu ++ topology avgpool ++ topology fc).
Proof.
  intros S0 S1 S2 S3 S4 S5 S6 S7 A0 A1 A2 A3 A4 A5 A6 A7 Hx
         D1 D2 D3 D4 D5 D6 D7 D8 D9.
  unfold WideResNet16_8.forward.
  eapply runs_attr_call; [done..|]. intros y1 σ1 Hy1.
  eapply runs_attr_call; [done..|]. intros y2 σ2 Hy2.
  eapply runs_attr_call; [done..|]. intros y3 σ3 Hy3.
  eapply runs_attr_call; [done..|]. intros y4 σ4 Hy4.
  eapply runs_attr_call; [done..|]. intros y5 σ5 Hy5.
  eapply runs_attr_call; [done..|]. intros y6 σ6 Hy6.
  eapply runs_attr_call; [done..|]. intros y7 σ7 Hy7.
  eapply runs_view_flat; [done..|]. intros y8 σ8 Hy8.
  rewrite <- (app_nil_r (topology fc)).
  eapply runs_attr_call; [done..|]. intros y9 σ9 Hy9.
  by apply runs_ret.
Qed.

End WideForward.

(** X4. A [WideResNet16_8] of depth at least 10, with width and
    [num_classes] at least 1 and a dropout probability in [0, 1], maps an
    image batch of shape [(batch, 3, h, w)] to [(batch, num_classes)]: the
    first group keeps the spatial size and the second and third halve it,
    rounding up.  While training, more than one value per channel must be
    left after the last group. *)
Theorem WideResNet16_8_forward_shape
    (training : bool) (depth width num_classes : Z) (dropout : Q)
    (batch h w : Z) :
  10 <= depth -> 1 <= width -> 1 <= num_classes ->
  (0 <= dropout)%Q -> (dropout <= 1)%Q ->
  0 < batch -> 1 <= h -> 1 <= w ->
  (training = true ->
   batch * strided 2 (strided 2 h) * strided 2 (strided 2 w) <> 1) ->
  exists (self : gmap string value) (layer1 layer2 layer3 : module),
    construct (WideResNet16_8.__init__ depth width num_classes dropout) = Ok self /\
    attr_module self "layer1" = Some layer1 /\
    attr_module self "layer2" = Some layer2 /\
    attr_module self "layer3" = Some layer3 /\
    denote (B := Shape.backend training)
      (Sequential [conv3x3 3 16 1; layer1; layer2; layer3]) [batch; 3; h; w] =
      Ok [batch; 64 * width; strided 2 (strided 2 h); strided 2 (strided 2 w)] /\
    run_forward (B := Shape.backend training) (WideResNet16_8.forward self)
      [batch; 3; h; w] =
      (Ok [batch; num_classes],
       [conv3x3 3 16 1] ++ topology layer1 ++ topology layer2 ++
       topology layer3 ++
       [BatchNorm2d (64 * width) true; ReLU true; AdaptiveAvgPool2d 1;
        Linear (64 * width) num_classes]).
Proof.
  intros Hd Hwd Hnc Hd0 Hd1 Hb Hh Hw Htr.
  assert (Hl : 1 <= (depth - 4) `div` 6).
  { apply Z.div_le_lower_bound; lia. }
  destruct (WideResNet16_8_construct depth width num_classes dropout)
    as (self & Hc & S0 & S1 & S2 & S3 & S4 & S5 & S6 & S7);
    [lia | lia | by intros _; apply rejects_Dropout |].
  set (layer := (depth - 4) `div` 6) in *.
  pose proof (strided_bounds 2 h ltac:(lia) Hh) as Bh.
  pose proof (strided_bounds 2 w ltac:(lia) Hw) as Bw.
  pose proof (strided_bounds 2 (strided 2 h) ltac:(lia) ltac:(lia)) as Bh2.
  pose proof (strided_bounds 2 (strided 2 w) ltac:(lia) ltac:(lia)) as Bw2.
  assert (Htr2 : training = true -> batch * strided 2 h * strided 2 w <> 1).
  { intros Ht. by apply (batch_one_value batch _ _ _ _ Bh2 Bw2 Hb), Htr. }
  assert (Htr1 : training = true -> batch * h * w <> 1).
  { intros Ht. by apply (batch_one_value batch _ _ _ _ Bh Bw Hb), Htr2. }
  assert (D1 : denote (B := Shape.backend training) (conv3x3 3 16 1)
                 [batch; 3; h; w] = Ok [batch; 16; h; w]).
  { by apply conv2d_same_ok. }
  assert (D2 : denote (B := Shape.backend training)
                 (Sequential (wide_group 16 (16 * width) dropout 1 layer))
                 [batch; 16; h; w] = Ok [batch; 16 * width; h; w]).
  { rewrite <- (strided_1 h) at 2. rewrite <- (strided_1 w) at 2.
    apply wide_group_shape; rewrite ?strided_1; (done || lia). }
  assert (D3 : denote (B := Shape.backend training)
                 (Sequential (wide_group (16 * width) (32 * width) dropout 2 layer))
                 [batch; 16 * width; h; w] =
               Ok [batch; 32 * width; strided 2 h; strided 2 w]).
  { apply wide_group_shape; (done || lia). }
  assert (D4 : denote (B := Shape.backend training)
                 (Sequential (wide_group (32 * width) (64 * width) dropout 2 layer))
                 [batch; 32 * width; strided 2 h; strided 2 w] =
               Ok [batch; 64 * width; strided 2 (strided 2 h);
                   strided 2 (strided 2 w)]).
  { apply wide_group_shape; (done || lia). }
  eexists self, _, _, _. split; [done|].
  unfold attr_module. rewrite S1, S2, S3.
  split; [done|]. split; [done|]. split; [done|]. split.
  - rewrite denote_Sequential_cons, D1. cbn [mbind result_mbind].
    rewrite denote_Sequential_cons, D2. cbn [mbind result_mbind].
    rewrite denote_Sequential_cons, D3. cbn [mbind result_mbind].
    rewrite denote_Sequential_cons, D4. done.
  - apply (runs_run_forward (B := Shape.backend training)).
    eapply (WideResNet16_8_forward_runs (B := Shape.backend training) self
              (conv3x3 3 16 1) _ _ _
              (BatchNorm2d (64 * width) true) (ReLU true)
              (AdaptiveAvgPool2d 1) (Linear (64 * width) num_classes));
      [exact S0 | exact S1 | exact S2 | exact S3 | exact S4 | exact S5
      | exact S6 | exact S7 | done
      | apply wide_group_alias_free | apply wide_group_alias_free
      | apply wide_group_alias_free | done | done | done | done | done
      | exact D1 | exact D2 | exact D3 | exact D4
      | apply batch_norm2d_ok; (done || lia)
      | reflexivity
      | apply adaptive_avg_pool2d_ok; lia
      | apply flatten_ok; lia
      | apply linear_ok; unfold Shape.product; cbn [foldr]; lia ].
Qed.

Lemma WideResNet16_8_forward_shape_witness :
  10 <= 16 /\ 1 <= 8 /\ 1 <= 10 /\ (0 <= 3 # 10)%Q /\ (3 # 10 <= 1)%Q /\
  0 < 4 /\ 1 <= 32 /\ 1 <= 32 /\
  (true = true -> 4 * strided 2 (strided 2 32) * strided 2 (strided 2 32) <> 1) /\
  exists self : gmap string value,
    construct (WideResNet16_8.__init__ 16 8 10 (3 # 10)) = Ok self /\
    (run_forward (B := Shape.backend true) (WideResNet16_8.forward self)
       [4; 3; 32; 32]).1 = Ok [4; 10].
Proof.
  assert (Htr : true = true ->
    4 * strided 2 (strided 2 32) * strided 2 (strided 2 32) <> 1)
    by (intros _; by vm_compute).
  assert (H0 : (0 <= 3 # 10)%Q) by (by vm_compute).
  assert (H1 : (3 # 10 <= 1)%Q) by (by vm_compute).
  do 3 (split; [lia|]). split; [exact H0|]. split; [exact H1|].
  do 3 (split; [lia|]). split; [exact Htr|].
  destruct (WideResNet16_8_forward_shape true 16 8 10 (3 # 10) 4 32 32
              ltac:(lia) ltac:(lia) ltac:(lia) H0 H1 ltac:(lia) ltac:(lia)
              ltac:(lia) Htr)
    as (self & l1 & l2 & l3 & Hc & _ & _ & _ & _ & Hrun).
  exists self. split; [done|]. by rewrite Hrun.
Defined.

(** One module of a forward pass: fetch the attribute, call it, go on. *)
Ltac value_step Hname Ham Hx :=
  rewrite (fwd_bind_ok _ _ _ _ _ (self_module_ok _ _ _ _ Hname));
  match goal with
  | |- context [ (call ?m ?x ≫= ?k) ?σ ] =>
      let H := fresh "H" in
      pose proof (returned_call_bind m x σ _ k Ham Hx) as H;
      destruct (denote m _) as [?|?]; [|exact H];
      let y := fresh "y" in
      let σ' := fresh "σ" in
      let Hy := fresh "Hy" in
      destruct H as (y & σ' & -> & Hy); cbn [mbind result_mbind]
  end.

Section ForwardValues.
Context `{B : Backend}.

Lemma bind_ret_fwd {A C} (a : A) (k : A -> fwd C) σ :
  (mret a ≫= k) σ = k a σ.
Proof. reflexivity. Qed.

Lemma bind_assoc_fwd {A C D} (c : fwd A) (f : A -> fwd C) (g : C -> fwd D) σ :
  ((c ≫= f) ≫= g) σ = (c ≫= (fun a => f a ≫= g)) σ.
Proof.
  unfold mbind, fwd_mbind, fwd_bind. by destruct (c σ) as [[a|e] σ'].
Qed.

(** [WideResNet16_8.forward] on values: the in-place ReLU only overwrites
    the output of [bn]. *)
Lemma WideResNet16_8_forward_value (self : gmap string value)
    (conv layer1 layer2 layer3 bn relu avgpool fc : module)
    (x : nat) (σ : fstate) (t : Tensor) :
  self !! "conv" = Some (VModule conv) ->
  self !! "layer1" = Some (VModule layer1) ->
  self !! "layer2" = Some (VModule layer2) ->
  self !! "layer3" = Some (VModule layer3) ->
  self !! "bn" = Some (VModule bn) ->
  self !! "relu" = Some (VModule relu) ->
  self !! "avgpool" = Some (VModule avgpool) ->
  self !! "fc" = Some (VModule fc) ->
  alias_free conv = true -> alias_free layer1 = true ->
  alias_free layer2 = true -> alias_free layer3 = true ->
  alias_free bn = true -> alias_free relu = true ->
  alias_free avgpool = true -> alias_free fc = true ->
  heap σ !! x = Some t ->
  returned (WideResNet16_8.forward self x σ) =
    (t ← denote conv t;
     t ← denote layer1 t;
     t ← denote layer2 t;
     t ← denote layer3 t;
     t ← denote bn t;
     t ← denote relu t;
     t ← denote avgpool t;
     t ← tensor_flatten t;
     denote fc t).
Proof.
  intros S0 S1 S2 S3 S4 S5 S6 S7 A0 A1 A2 A3 A4 A5 A6 A7 Hx.
  unfold WideResNet16_8.forward.
  value_step S0 A0 Hx. value_step S1 A1 Hy. value_step S2 A2 Hy0.
  value_step S3 A3 Hy1. value_step S4 A4 Hy2. value_step S5 A5 Hy3.
  value_step S6 A6 Hy4.
  match goal with
  | |- context [ (view_flat ?x ≫= ?k) ?σ ] =>
      pose proof (returned_view_flat_bind x σ _ k Hy5) as Hv
  end.
  destruct (tensor_flatten _) as [t8|e]; [|exact Hv].
  destruct Hv as (y8 & σ8 & -> & Hy8). cbn [mbind result_mbind].
  rewrite (fwd_bind_ok _ _ _ _ _ (self_module_ok _ _ _ _ S7)).
  by apply returned_call.
Qed.

(** [sn_CNN.forward] on values. *)
Lemma sn_CNN_forward_value (self : gmap string value) (standard : bool)
    (bn0 init_conv layer1 layer2 layer3 avgpool fc : module)
    (x : nat) (σ : fstate) (t : Tensor) :
  self !! "standard" = Some (VBool standard) ->
  self !! "bn0" = Some (VModule bn0) ->
  self !! "init_conv" = Some (VModule init_conv) ->
  (standard = true -> self !! "layer1" = Some (VModule layer1)) ->
  self !! "layer2" = Some (VModule layer2) ->
  self !! "layer3" = Some (VModule layer3) ->
  self !! "avgpool" = Some (VModule avgpool) ->
  self !! "fc" = Some (VModule fc) ->
  alias_free bn0 = true -> alias_free init_conv = true ->
  alias_free layer1 = true -> alias_free layer2 = true ->
  alias_free layer3 = true -> alias_free avgpool = true ->
  alias_free fc = true ->
  heap σ !! x = Some t ->
  returned (sn_CNN.forward self x σ) =
    (t ← denote bn0 t;
     t ← denote init_conv t;
     t ← (if standard then denote layer1 t else Ok t);
     t ← denote layer2 t;
     t ← denote layer3 t;
     t ← denote avgpool t;
     t ← tensor_flatten t;
     denote fc t).
Proof.
  intros Hstd S0 S1 S2 S3 S4 S5 S6 A0 A1 A2 A3 A4 A5 A6 Hx.
  unfold sn_CNN.forward.
  rewrite (fwd_bind_ok _ _ _ _ _ (self_bool_ok _ _ _ _ Hstd)).
  rewrite (fwd_bind_ok _ _ σ tt σ); [|by destruct standard].
  value_step S0 A0 Hx. value_step S1 A1 Hy.
  rewrite (fwd_bind_ok _ _ _ _ _ (self_bool_ok _ _ _ _ Hstd)).
  destruct standard; cbv iota.
  - rewrite bind_assoc_fwd.
    value_step (S2 eq_refl) A2 Hy0.
    value_step S3 A3 Hy1. value_step S4 A4 Hy2. value_step S5 A5 Hy3.
    match goal with
    | |- context [ (view_flat ?x ≫= ?k) ?σ ] =>
        pose proof (returned_view_flat_bind x σ _ k Hy4) as Hv
    end.
    destruct (tensor_flatten _) as [t8|e]; [|exact Hv].
    destruct Hv as (y8 & σ8 & -> & Hy8). cbn [mbind result_mbind].
    rewrite (fwd_bind_ok _ _ _ _ _ (self_module_ok _ _ _ _ S6)).
    by apply returned_call.
  - rewrite bind_ret_fwd. cbn [mbind result_mbind].
    value_step S3 A3 Hy0. value_step S4 A4 Hy1. value_step S5 A5 Hy2.
    match goal with
    | |- context [ (view_flat ?x ≫= ?k) ?σ ] =>
        pose proof (returned_view_flat_bind x σ _ k Hy3) as Hv
    end.
    destruct (tensor_flatten _) as [t8|e]; [|exact Hv].
    destruct Hv as (y8 & σ8 & -> & Hy8). cbn [mbind result_mbind].
    rewrite (fwd_bind_ok _ _ _ _ _ (self_module_ok _ _ _ _ S6)).
    by apply returned_call.
Qed.

End ForwardValues.

(** ** Inputs the models reject *)

Lemma conv2d_out_channels cin cout k s p input output :
  Shape.conv2d cin cout k s p input = Ok output ->
  (exists n h w, output = [n; cout; h; w]) \/ (exists h w, output = [cout; h; w]).
Proof.
  unfold Shape.conv2d. intros Hc.
  destruct input as [|a [|b [|c [|d [|? ?]]]]]; try discriminate.
  - destruct (_ && _); [|discriminate]. injection Hc as <-. right. eauto.
  - destruct (_ && _); [|discriminate]. injection Hc as <-. left. eauto.
Qed.

Lemma batch_norm2d_mismatch training c n c' h w :
  c' <> c -> exists e, Shape.batch_norm2d training c [n; c'; h; w] = Raise e.
Proof.
  intros Hne. unfold Shape.batch_norm2d.
  destruct (training && (n * h * w =? 1)); [by eexists|].
  destruct (Z.eqb_spec c' c); [done | by eexists].
Qed.

Lemma batch_norm2d_ok_inv training c input output :
  Shape.batch_norm2d training c input = Ok output ->
  output = input /\ exists n h w, input = [n; c; h; w].
Proof.
  unfold Shape.batch_norm2d. intros Hb.
  destruct input as [|n [|c' [|h [|w [|? ?]]]]]; try discriminate.
  destruct (training && (n * h * w =? 1)); [discriminate|].
  destruct (Z.eqb_spec c' c) as [->|]; [|discriminate].
  destruct (c =? 0); [discriminate|].
  injection Hb as <-. eauto.
Qed.

(** X5. A [WideResNet16_8] of depth below 10 is built without complaint, but
    has no block in any group, and its [forward] raises on every input: the
    closing batch norm expects [64*width] channels and the first
    convolution delivers 16. *)
Theorem WideResNet16_8_shallow_raises
    (training : bool) (depth width num_classes : Z) (dropout : Q)
    (input : list Z) :
  depth < 10 -> 1 <= width -> 1 <= num_classes ->
  exists self : gmap string value,
    construct (WideResNet16_8.__init__ depth width num_classes dropout) = Ok self /\
    attr_module self "layer1" = Some (Sequential []) /\
    attr_module self "layer2" = Some (Sequential []) /\
    attr_module self "layer3" = Some (Sequential []) /\
    exists e : exn,
      (run_forward (B := Shape.backend training) (WideResNet16_8.forward self)
         input).1 = Raise e.
Proof.
  intros Hd Hwd Hnc.
  assert (Hl : (depth - 4) `div` 6 <= 0).
  { apply Z.lt_succ_r, Z.div_lt_upper_bound; lia. }
  destruct (WideResNet16_8_construct depth width num_classes dropout)
    as (self & Hc & S0 & S1 & S2 & S3 & S4 & S5 & S6 & S7);
    [lia | lia | intros ?; lia |].
  rewrite wide_group_nil in S1, S2, S3 by done.
  exists self. split; [done|].
  unfold attr_module. rewrite S1, S2, S3.
  split; [done|]. split; [done|]. split; [done|].
  rewrite run_forward_returned.
  rewrite (WideResNet16_8_forward_value (B := Shape.backend training) self
             _ _ _ _ _ _ _ _ 0%nat _ input S0 S1 S2 S3 S4 S5 S6 S7);
    [|done..].
  unfold conv3x3. cbn [denote layer_fn Shape.backend Shape.layer].
  destruct (Shape.conv2d 3 16 3 1 1 input) as [t1|e] eqn:Hconv; [|by exists e].
  cbn [mbind result_mbind].
  destruct (conv2d_out_channels _ _ _ _ _ _ _ Hconv)
    as [(n & h & w & ->)|(h & w & ->)].
  - destruct (batch_norm2d_mismatch training (64 * width) n 16 h w ltac:(lia))
      as [e ->].
    by exists e.
  - by exists ValueError.
Qed.

Lemma WideResNet16_8_shallow_raises_witness :
  9 < 10 /\ 1 <= 8 /\ 1 <= 10 /\
  exists self : gmap string value,
    construct (WideResNet16_8.__init__ 9 8 10 (3 # 10)) = Ok self /\
    exists e : exn,
      (run_forward (B := Shape.backend false) (WideResNet16_8.forward self)
         [4; 3; 32; 32]).1 = Raise e.
Proof.
  do 3 (split; [lia|]).
  destruct (WideResNet16_8_shallow_raises false 9 8 10 (3 # 10) [4; 3; 32; 32]
              ltac:(lia) ltac:(lia) ltac:(lia))
    as (self & Hc & _ & _ & _ & He).
  by exists self.
Defined.

(** X6. [sn_CNN] built with [standard=True] and [in_channels] other than 1
    rejects every input: [forward] applies [bn0], which wants
    [in_channels*3] channels, before the first convolution, which wants 3. *)
Theorem sn_CNN_standard_rejects
    (training : bool) (in_channels k n num_classes : Z) (input : list Z) :
  1 <= in_channels -> in_channels <> 1 -> 1 <= k -> 1 <= num_classes ->
  exists self : gmap string value,
    construct (sn_CNN.__init__ in_channels k n num_classes true) = Ok self /\
    exists e : exn,
      (run_forward (B := Shape.backend training) (sn_CNN.forward self) input).1
      = Raise e.
Proof.
  intros Hpos Hic Hk Hnc.
  destruct (sn_CNN_construct in_channels k n num_classes true)
    as (self & Hc & S0 & S1 & S2 & S3 & S4 & S5 & S6 & S7); [lia..|].
  exists self. split; [done|].
  rewrite run_forward_returned.
  rewrite (sn_CNN_forward_value (B := Shape.backend training) self true
             _ _ _ _ _ _ _ 0%nat _ input S0 S1 S2 (fun _ => S3) S4 S5 S6 S7);
    [|done || apply residual_group_alias_free ..].
  cbn [denote layer_fn Shape.backend Shape.layer].
  destruct (Shape.batch_norm2d training (in_channels * 3) input)
    as [t1|e] eqn:Hbn; [|by exists e].
  apply batch_norm2d_ok_inv in Hbn as (-> & n0 & h & w & ->).
  cbn [mbind result_mbind]. unfold Shape.conv2d.
  destruct (Z.eqb_spec (in_channels * 3) 3) as [|_]; [lia|].
  by exists RuntimeError.
Qed.

Lemma sn_CNN_standard_rejects_witness :
  1 <= 3 /\ 3 <> 1 /\ 1 <= 8 /\ 1 <= 10 /\
  exists self : gmap string value,
    construct (sn_CNN.__init__ 3 8 4 10 true) = Ok self /\
    exists e : exn,
      (run_forward (B := Shape.backend false) (sn_CNN.forward self)
         [4; 3; 32; 32]).1 = Raise e.
Proof.
  do 4 (split; [lia|]).
  apply (sn_CNN_standard_rejects false 3 8 4 10 [4; 3; 32; 32]); lia.
Defined.

(** ** What the in-place operations leave alone *)

Section KeepsInput.
Context `{B : Backend}.




End KeepsInput.



(** ** Why the first block of a group carries a downsample *)







(** ** What a whole forward pass leaves alone *)

Section Untouched.
Context `{B : Backend}.









End Untouched.





(** ** The groups of the wide residual network *)




(** ** The whole networks on values *)

(** X14. In any backend, [WideResNet16_8.forward] on a model as its
    constructor leaves it computes
    [fc(flatten(avgpool(relu(bn(layer3(layer2(layer1(conv(x)))))))))] on the
    value of its input and raises what the first failing stage raises: none
    of the in-place operations of the model disturbs a value that is read
    later. *)
Theorem WideResNet16_8_forward_composition `{B : Backend}
    (depth width num_classes : Z) (dropout : Q) (self : gmap string value)
    (x : nat) (σ : fstate) (t : Tensor) :
  construct (WideResNet16_8.__init__ depth width num_classes dropout) = Ok self ->
  heap σ !! x = Some t ->
  returned (WideResNet16_8.forward self x σ) =
    (t ← layer_fn (Conv2d 3 16 3 1 1 false) t;
     t ← denote (Sequential
           (wide_group 16 (16 * width) dropout 1 ((depth - 4) `div` 6))) t;
     t ← denote (Sequential
           (wide_group (16 * width) (32 * width) dropout 2 ((depth - 4) `div` 6))) t;
     t ← denote (Sequential
           (wide_group (32 * width) (64 * width) dropout 2 ((depth - 4) `div` 6))) t;
     t ← layer_fn (BatchNorm2d (64 * width) true) t;
     t ← layer_fn (ReLU true) t;
     t ← layer_fn (AdaptiveAvgPool2d 1) t;
     t ← tensor_flatten t;
     layer_fn (Linear (64 * width) num_classes) t).
Proof.
  intros Hc Hx.
  pose proof (WideResNet16_8_construct_inv _ _ _ _ _ Hc)
    as (S0 & S1 & S2 & S3 & S4 & S5 & S6 & S7).
  by rewrite (WideResNet16_8_forward_value self _ _ _ _ _ _ _ _ x σ t
                S0 S1 S2 S3 S4 S5 S6 S7)
    by (done || apply wide_group_alias_free).
Qed.

Lemma WideResNet16_8_forward_composition_witness :
  let B := Shape.backend true in
  let σ := {| heap := [[4; 3; 8; 8]]; applied := [] |} in
  exists self : gmap string value,
    construct (WideResNet16_8.__init__ 10 1 10 (3 # 10)) = Ok self /\
    returned (WideResNet16_8.forward self 0%nat σ) = Ok [4; 10].
Proof.
  intros B σ.
  destruct (WideResNet16_8_construct 10 1 10 (3 # 10)) as (self & Hc & _);
    [lia | lia | by intros _; apply rejects_Dropout |].
  exists self. split; [done|].
  rewrite (WideResNet16_8_forward_composition 10 1 10 (3 # 10) self 0%nat σ
             [4; 3; 8; 8] Hc eq_refl).
  by vm_compute.
Defined.

(** X15. In any backend, [sn_CNN.forward] on a model as its constructor
    leaves it computes [fc(flatten(avgpool(layer3(layer2(...)))))] on the
    value of its input, where [...] is [layer1(init_conv(bn0(x)))] for a
    standard model and [init_conv(bn0(x))] otherwise, and raises what the
    first failing stage raises. *)
Theorem sn_CNN_forward_composition `{B : Backend}
    (in_channels k n num_classes : Z) (standard : bool)
    (self : gmap string value) (x : nat) (σ : fstate) (t : Tensor) :
  construct (sn_CNN.__init__ in_channels k n num_classes standard) = Ok self ->
  heap σ !! x = Some t ->
  returned (sn_CNN.forward self x σ) =
    (t ← layer_fn (BatchNorm2d (in_channels * 3) true) t;
     t ← denote
           (if standard then
              Sequential [Conv2d 3 (16 * k) 3 1 1 false;
                          BatchNorm2d (16 * k) true; ReLU true]
            else
              Sequential [BatchNorm2d (in_channels * 3) false;
                          Conv2d (in_channels * 3) (16 * k) 3 1 1 false;
                          BatchNorm2d (16 * k) true; ReLU true]) t;
     t ← (if standard
          then denote (Sequential (residual_group (16 * k) (16 * k) n)) t
          else Ok t);
     t ← denote (Sequential (residual_group (16 * k) (32 * k) n)) t;
     t ← denote (Sequential (residual_group (32 * k) (64 * k) n)) t;
     t ← layer_fn (AdaptiveAvgPool2d 2) t;
     t ← tensor_flatten t;
     layer_fn (Linear (64 * k * 4) num_classes) t).
Proof.
  intros Hc Hx.
  pose proof (sn_CNN_construct_inv _ _ _ _ _ _ Hc)
    as (S0 & S1 & S2 & S3 & S4 & S5 & S6 & S7).
  rewrite (sn_CNN_forward_value self standard
             (BatchNorm2d (in_channels * 3) true)
             (if standard then
                Sequential [Conv2d 3 (16 * k) 3 1 1 false;
                            BatchNorm2d (16 * k) true; ReLU true]
              else
                Sequential [BatchNorm2d (in_channels * 3) false;
                            Conv2d (in_channels * 3) (16 * k) 3 1 1 false;
                            BatchNorm2d (16 * k) true; ReLU true])
             (Sequential (residual_group (16 * k) (16 * k) n))
             (Sequential (residual_group (16 * k) (32 * k) n))
             (Sequential (residual_group (32 * k) (64 * k) n))
             (AdaptiveAvgPool2d 2) (Linear (64 * k * 4) num_classes) x σ t);
    try done; try apply residual_group_alias_free.
  - by intros ->.
  - by destruct standard.
Qed.

Lemma sn_CNN_forward_composition_witness :
  let B := Shape.backend true in
  let σ := {| heap := [[4; 3; 8; 8]]; applied := [] |} in
  exists self : gmap string value,
    construct (sn_CNN.__init__ 1 1 2 10 false) = Ok self /\
    returned (sn_CNN.forward self 0%nat σ) = Ok [4; 10].
Proof.
  intros B σ.
  destruct (sn_CNN_construct 1 1 2 10 false) as (self & Hc & _); [lia..|].
  exists self. split; [done|].
  rewrite (sn_CNN_forward_composition 1 1 2 10 false self 0%nat σ
             [4; 3; 8; 8] Hc eq_refl).
  by vm_compute.
Defined.

(** ** The wrapped ResNet-50, when something fails *)

(** X16. In any backend, [sn_Resnet50.forward] catches nothing and adds
    nothing: when the backbone raises on the input, the call raises the
    same exception and the classifier is never applied; otherwise the
    classifier is applied to the 2048 features, and the call returns its
    result or raises what it raises. *)
Theorem sn_Resnet50_forward_propagates `{B : Backend}
    (num_classes : Z) (self : gmap string value) (t : Tensor) :
  construct (sn_Resnet50.__init__ num_classes) = Ok self ->
  let fc := Linear 2048 num_classes in
  let model_ft := ResNet "resnet50" true fc in
  run_forward (sn_Resnet50.forward self) t =
    match resnet_features "resnet50" true t with
    | Raise e => (Raise e, [model_ft])
    | Ok f => (layer_fn fc f, [model_ft; fc])
    end.
Proof.
  intros Hc fc model_ft.
  apply sn_Resnet50_construct_inv in Hc as ->.
  unfold run_forward, sn_Resnet50.forward.
  set (σ := {| heap := [t]; applied := [] |}).
  rewrite (fwd_bind_ok _ _ σ model_ft σ); [|by apply self_module_ok].
  unfold mbind, fwd_mbind, fwd_bind. subst σ. cbn [call model_ft fc].
  unfold call_layer, mbind, fwd_mbind, fwd_bind, record_call, load, lift, alloc,
    mret, fwd_mret, fwd_ret.
  cbn [heap applied lookup list_lookup app].
  destruct (resnet_features "resnet50" true t) as [f|e]; [|done].
  cbn [heap applied length lookup list_lookup app].
  subst model_ft fc.
  by destruct (layer_fn (Linear 2048 num_classes) f) as [v|e].
Qed.

Lemma sn_Resnet50_forward_propagates_witness :
  exists self : gmap string value,
    construct (sn_Resnet50.__init__ 10) = Ok self /\
    run_forward (B := Shape.backend false) (sn_Resnet50.forward self)
      [4; 1; 224; 224] =
      (Raise RuntimeError, [ResNet "resnet50" true (Linear 2048 10)]).
Proof.
  eexists. split; [apply sn_Resnet50_construct_ok; lia|].
  exact (sn_Resnet50_forward_propagates (B := Shape.backend false) 10 _
           [4; 1; 224; 224] (sn_Resnet50_construct_ok 10 ltac:(lia))).
Defined.

(** ** Counting parameters, part by part *)

(** X17. [countLearnableParams] is additive: the count of a model whose
    parameters are those of one part followed by those of another is the
    sum of the two counts, and neither swapping the parts nor reversing the
    order in which the parameters are yielded changes it. *)
Theorem countLearnableParams_additive
    (ps qs : list WideResNet16_8.parameter) :
  WideResNet16_8.countLearnableParams (ps ++ qs) =
    WideResNet16_8.countLearnableParams ps +
    WideResNet16_8.countLearnableParams qs /\
  WideResNet16_8.countLearnableParams (qs ++ ps) =
    WideResNet16_8.countLearnableParams (ps ++ qs) /\
  WideResNet16_8.countLearnableParams (reverse ps) =
    WideResNet16_8.countLearnableParams ps.
Proof.
  unfold WideResNet16_8.countLearnableParams. cbn zeta.
  rewrite !countLearnableParams_acc, !Z.add_0_l.
  assert (Happ : forall a b, numel_sum (a ++ b) = numel_sum a + numel_sum b).
  { intros a b. unfold numel_sum. rewrite fmap_app.
    induction (WideResNet16_8.numel <$> a) as [|z zs IH]; cbn; lia. }
  split_and!; [apply Happ | rewrite !Happ; lia |].
  induction ps as [|p ps IH]; [done|].
  rewrite reverse_cons, Happ, IH. unfold numel_sum. cbn. lia.
Qed.
